(** * TGStatParser (pars.py): a shallow embedding and its checked properties

    The development follows the source file top-down:

    - [PyStr]   the [str] methods the parser calls ([lower], [strip],
                [replace], [startswith], [in]);
    - [PyNum]   [int(str)], [float(str)], [float * int] and [int(float)],
                with binary64 arithmetic taken from [SpecFloat];
    - [Re]      a small backtracking matcher for the four regular
                expressions of the source;
    - [Soup]    the markup tree and the BeautifulSoup queries used
                ([find], [find_all], [select], [select_one], [.text]);
    - [TGStat]  the class [TGStatParser] itself: token refresh, the two
                extractors, the number normalizer and the two pagination
                drivers, run against an explicit model of the HTTP peer.

    Text is modelled as [string] (a sequence of bytes).  The character
    classes [\w], [\d], [\s] and the methods [lower] and [strip] are
    modelled on ASCII; bytes above 127 are left unchanged by [lower] and
    belong to no class. *)

From Stdlib Require Import ZArith List Bool Ascii String Lia.
From Stdlib Require Import Numbers.DecimalString.
From Stdlib Require Import Floats.SpecFloat.
Import ListNotations.

Set Warnings "-register-all".

Open Scope string_scope.
Open Scope Z_scope.

(** ** Exceptions and results *)

Inductive exn : Type :=
| ValueError
| OverflowError
| AttributeError
| ConnectionError.

Inductive result (A : Type) : Type :=
| Ok (a : A)
| Raise (e : exn).

Arguments Ok {A} a.
Arguments Raise {A} e.

Definition rbind {A B} (r : result A) (k : A -> result B) : result B :=
  match r with
  | Ok a => k a
  | Raise e => Raise e
  end.

Notation "x <- r ;; k" := (rbind r (fun x => k))
  (at level 61, r at next level, right associativity).

Definition exn_eqb (a b : exn) : bool :=
  match a, b with
  | ValueError, ValueError
  | OverflowError, OverflowError
  | AttributeError, AttributeError
  | ConnectionError, ConnectionError => true
  | _, _ => false
  end.

(** [try: r except e: h] *)
Definition try_except {A} (r : result A) (e : exn) (h : result A) : result A :=
  match r with
  | Ok a => Ok a
  | Raise e' => if exn_eqb e' e then h else Raise e'
  end.

(** ** Python [str] methods *)

Module PyStr.

Definition code (c : ascii) : Z := Z.of_nat (nat_of_ascii c).

Definition between (lo hi : Z) (c : ascii) : bool :=
  (lo <=? code c) && (code c <=? hi).

Definition is_digit (c : ascii) : bool := between 48 57 c.
Definition is_upper (c : ascii) : bool := between 65 90 c.
Definition is_lower (c : ascii) : bool := between 97 122 c.

(** [\w] *)
Definition is_word (c : ascii) : bool :=
  is_digit c || is_upper c || is_lower c || Ascii.eqb c "_".

(** Whitespace of [str.strip()], [str.isspace()] and [\s]:
    TAB, LF, VT, FF, CR, FS, GS, RS, US and the space. *)
Definition is_space (c : ascii) : bool := between 9 13 c || between 28 32 c.

(** Whitespace of C's [isspace] in the "C" locale, which [int()] and
    [float()] use on an ASCII string. *)
Definition is_cspace (c : ascii) : bool :=
  between 9 13 c || Ascii.eqb c " ".

Definition lower_char (c : ascii) : ascii :=
  if is_upper c then ascii_of_nat (nat_of_ascii c + 32) else c.

Fixpoint lower (s : string) : string :=
  match s with
  | EmptyString => EmptyString
  | String c s' => String (lower_char c) (lower s')
  end.

Fixpoint lstrip_by (p : ascii -> bool) (s : string) : string :=
  match s with
  | EmptyString => EmptyString
  | String c s' => if p c then lstrip_by p s' else s
  end.

Fixpoint rstrip_by (p : ascii -> bool) (s : string) : string :=
  match s with
  | EmptyString => EmptyString
  | String c s' =>
      match rstrip_by p s' with
      | EmptyString => if p c then EmptyString else String c EmptyString
      | r => String c r
      end
  end.

Definition strip_by (p : ascii -> bool) (s : string) : string :=
  rstrip_by p (lstrip_by p s).

(** [s.strip()] *)
Definition strip (s : string) : string := strip_by is_space s.

(** [s.lstrip(c)] for a one-character argument *)
Definition lstrip_char (c : ascii) (s : string) : string :=
  lstrip_by (Ascii.eqb c) s.

(** [s.replace(c, by)] for a one-character pattern *)
Fixpoint replace (c : ascii) (by_ : string) (s : string) : string :=
  match s with
  | EmptyString => EmptyString
  | String d s' =>
      if Ascii.eqb d c then by_ ++ replace c by_ s'
      else String d (replace c by_ s')
  end.

(** [c in s] for a one-character [c] *)
Fixpoint contains_char (c : ascii) (s : string) : bool :=
  match s with
  | EmptyString => false
  | String d s' => Ascii.eqb d c || contains_char c s'
  end.

(** [s.startswith(p)] *)
Definition startswith (p s : string) : bool := String.prefix p s.

(** [p in s] *)
Fixpoint contains (p s : string) : bool :=
  String.prefix p s ||
  match s with
  | EmptyString => false
  | String _ s' => contains p s'
  end.

(** [sep.join(l)] *)
Fixpoint join (sep : string) (l : list string) : string :=
  match l with
  | [] => ""
  | [x] => x
  | x :: l' => x ++ sep ++ join sep l'
  end.

(** [bool(s)] *)
Definition truthy (s : string) : bool := negb (s =? "")%string.

(** [s.split()] *)
Fixpoint words_from (cur : string) (s : string) : list string :=
  match s with
  | EmptyString => if (cur =? "")%string then [] else [cur]
  | String c s' =>
      if is_space c
      then (if (cur =? "")%string then words_from "" s' else cur :: words_from "" s')
      else words_from (cur ++ String c "") s'
  end.

Definition words (s : string) : list string := words_from "" s.

End PyStr.

(** ** Python numbers: [int(str)], [float(str)], [float * int], [int(float)] *)

Module PyNum.
Import PyStr.

(** A Python [float] is an IEEE 754 binary64 value. *)
Definition prec : Z := 53.
Definition emax : Z := 1024.
Definition float : Type := spec_float.

Definition digit_val (c : ascii) : Z := code c - 48.

(** Digit separators (PEP 515): every underscore stands between two
    digits.  Returns the text without them, or [None] when one is
    misplaced; [prev] is the character read before [s]. *)
Fixpoint drop_underscores (prev : ascii) (s : string) : option string :=
  match s with
  | EmptyString => if Ascii.eqb prev "_" then None else Some EmptyString
  | String c s' =>
      if Ascii.eqb c "_" then
        if is_digit prev then drop_underscores c s' else None
      else if Ascii.eqb prev "_" && negb (is_digit c) then None
      else option_map (String c) (drop_underscores c s')
  end.

(** Reads a maximal run of digits: its value continuing from [acc], the
    number of digits read and the rest of the text. *)
Fixpoint read_digits (acc : Z) (n : Z) (s : string) : Z * Z * string :=
  match s with
  | String c s' =>
      if is_digit c then read_digits (10 * acc + digit_val c) (n + 1) s'
      else (acc, n, s)
  | EmptyString => (acc, n, s)
  end.

Definition read_sign (s : string) : bool * string :=
  match s with
  | String "-" s' => (true, s')
  | String "+" s' => (false, s')
  | _ => (false, s)
  end.

(** [sys.get_int_max_str_digits()], at its default: [int(s)] refuses a
    text with more digits than this. *)
Definition int_max_str_digits : Z := 4300.

(** [int(s)], base 10.  Sign, separators and surrounding whitespace do
    not count as digits; leading zeros do. *)
Definition py_int (s : string) : result Z :=
  match drop_underscores zero (strip_by is_cspace s) with
  | None => Raise ValueError
  | Some t =>
      let '(neg, t1) := read_sign t in
      let '(v, n, rest) := read_digits 0 0 t1 in
      if (0 <? n) && (rest =? "")%string then
        if n <=? int_max_str_digits then Ok (if neg then - v else v)
        else Raise ValueError
      else Raise ValueError
  end.

(** The binary64 value nearest to [(-1)^neg * m * 10^e10], ties to even. *)
Definition float_of_decimal (neg : bool) (m : Z) (e10 : Z) : float :=
  match m with
  | Zpos p =>
      match e10 with
      | Z0 => binary_round prec emax neg p 0
      | Zpos k => binary_round prec emax neg (p * Pos.pow 10 k) 0
      | Zneg k =>
          SFdiv prec emax (S754_finite neg p 0)
                          (S754_finite false (Pos.pow 10 k) 0)
      end
  | _ => S754_zero neg
  end.

(** The optional exponent part: [e], an optional sign, at least one
    digit.  When no well-formed exponent follows, nothing is consumed. *)
Definition read_exponent (s : string) : Z * string :=
  match s with
  | String c s' =>
      if Ascii.eqb c "e" || Ascii.eqb c "E" then
        let '(eneg, s1) := read_sign s' in
        let '(v, n, rest) := read_digits 0 0 s1 in
        if 0 <? n then (if eneg then - v else v, rest) else (0, s)
      else (0, s)
  | EmptyString => (0, s)
  end.

(** [float(s)] *)
Definition py_float (s : string) : result float :=
  match drop_underscores zero s with
  | None => Raise ValueError
  | Some t =>
      let '(neg, t1) := read_sign (strip_by is_cspace t) in
      let l := lower t1 in
      if (l =? "inf")%string || (l =? "infinity")%string then Ok (S754_infinity neg)
      else if (l =? "nan")%string then Ok S754_nan
      else
        let '(ip, ni, r1) := read_digits 0 0 t1 in
        let '(m, nf, r2) :=
          match r1 with
          | String "." r => let '(m, n, r') := read_digits ip 0 r in (m, n, r')
          | _ => (ip, 0, r1)
          end in
        let '(e, r3) := read_exponent r2 in
        if (0 <? ni + nf) && (r3 =? "")%string
        then Ok (float_of_decimal neg m (e - nf))
        else Raise ValueError
  end.

(** [float(n)] for an integer that binary64 holds exactly *)
Definition float_of_Z (n : Z) : float := binary_normalize prec emax n 0 false.

(** [x * n] for a float [x] and an int [n] *)
Definition fmul_int (x : float) (n : Z) : float :=
  SFmul prec emax x (float_of_Z n).

(** [int(x)]: truncation toward zero *)
Definition int_of_float (x : float) : result Z :=
  match x with
  | S754_zero _ => Ok 0
  | S754_infinity _ => Raise OverflowError
  | S754_nan => Raise ValueError
  | S754_finite s m e =>
      let a := match e with
               | Zneg k => Z.shiftr (Zpos m) (Zpos k)
               | _ => Z.shiftl (Zpos m) e
               end in
      Ok (if s then - a else a)
  end.

End PyNum.

(** ** Regular expressions ([re.search]) *)

Module Re.
Import PyStr.

(** The fragment of the pattern language that the source uses.
    Quantifiers are greedy and alternatives are tried left to right, as
    in Python's backtracking matcher. *)
Inductive regex : Type :=
| Lit (l : string)            (* literal text *)
| Plus (p : ascii -> bool)    (* [class]+ *)
| Seq (r1 r2 : regex)         (* r1 r2 *)
| Alt (r1 r2 : regex)         (* r1|r2 *)
| Opt (r : regex)             (* (?:r)? *)
| Group (r : regex).          (* (r), the capture group 1 *)

Fixpoint drop_prefix (l s : string) : option string :=
  match l, s with
  | EmptyString, _ => Some s
  | String a l', String b s' => if Ascii.eqb a b then drop_prefix l' s' else None
  | String _ _, EmptyString => None
  end.

Section Run.
Context {A : Type}.

(** [class]*: the longest run first, then shorter ones. *)
Fixpoint star (p : ascii -> bool) (s : string) (k : string -> option A)
  : option A :=
  match s with
  | String c s' =>
      if p c then
        match star p s' k with
        | Some a => Some a
        | None => k s
        end
      else k s
  | EmptyString => k s
  end.

Definition plus (p : ascii -> bool) (s : string) (k : string -> option A)
  : option A :=
  match s with
  | String c s' => if p c then star p s' k else None
  | EmptyString => None
  end.

(** [run r s cap k]: match [r] at the start of [s], then continue
    with [k] on the rest of the text and the capture. *)
Fixpoint run (r : regex) (s : string) (cap : option string)
         (k : string -> option string -> option A) : option A :=
  match r with
  | Lit l =>
      match drop_prefix l s with
      | Some s' => k s' cap
      | None => None
      end
  | Plus p => plus p s (fun s' => k s' cap)
  | Seq r1 r2 => run r1 s cap (fun s' cap' => run r2 s' cap' k)
  | Alt r1 r2 =>
      match run r1 s cap k with
      | Some a => Some a
      | None => run r2 s cap k
      end
  | Opt r' =>
      match run r' s cap k with
      | Some a => Some a
      | None => k s cap
      end
  | Group r' =>
      run r' s cap
          (fun s' _ =>
             k s' (Some (substring 0 (length s - length s') s)))
  end.
End Run.

(** A match object, reduced to [group(1)]. *)
Definition match_at (r : regex) (s : string) : option (option string) :=
  run r s None (fun _ cap => Some cap).

(** [re.search(r, s)]: the leftmost match. *)
Fixpoint search (r : regex) (s : string) : option (option string) :=
  match match_at r s with
  | Some m => Some m
  | None =>
      match s with
      | String _ s' => search r s'
      | EmptyString => None
      end
  end.

(** [bool(re.search(r, s))] *)
Definition matches (r : regex) (s : string) : bool :=
  match search r s with
  | Some _ => true
  | None => false
  end.

Definition group1 (m : option string) : string :=
  match m with
  | Some g => g
  | None => ""
  end.

Definition is_char (c d : ascii) : bool := Ascii.eqb c d.

(** [/channel/(@[\w_]+|[\w\d\-]+)/stat] *)
Definition stat_link_re : regex :=
  Seq (Lit "/channel/")
      (Seq (Group (Alt (Seq (Lit "@") (Plus (fun c => is_word c || is_char "_" c)))
                       (Plus (fun c => is_word c || is_digit c || is_char "-" c))))
           (Lit "/stat")).

(** [([\d\s,km.]+)] *)
Definition leading_number_re : regex :=
  Group (Plus (fun c => is_digit c || is_space c || is_char "," c
                        || is_char "k" c || is_char "m" c || is_char "." c)).

(** [post-(\d+)] *)
Definition post_id_re : regex :=
  Seq (Lit "post-") (Group (Plus is_digit)).

(** [https://t(?:elegram)?\.(?:me|org)/|https://ttttt\.me/] *)
Definition telegram_link_re : regex :=
  Alt (Seq (Lit "https://t")
           (Seq (Opt (Lit "elegram"))
                (Seq (Lit ".") (Seq (Alt (Lit "me") (Lit "org")) (Lit "/")))))
      (Lit "https://ttttt.me/").

End Re.

(** ** The markup tree and the BeautifulSoup queries *)

Module Soup.
Import PyStr.

(** A parsed document: elements with their attributes and children, and
    text.  Names of tags and attributes are in lower case, as the
    parser delivers them; comments and the like are not represented.
    The document itself is an element named [[document]]. *)
Inductive node : Type :=
| Elem (name : string) (attrs : list (string * string)) (children : list node)
| Text (s : string).

Definition children (n : node) : list node :=
  match n with
  | Elem _ _ cs => cs
  | Text _ => []
  end.

(** Everything below [n], in document order. *)
Fixpoint descendants (n : node) : list node :=
  match n with
  | Elem _ _ cs => flat_map (fun c => c :: descendants c) cs
  | Text _ => []
  end.

Fixpoint assoc (k : string) (l : list (string * string)) : option string :=
  match l with
  | [] => None
  | (k', v) :: l' => if (k' =? k)%string then Some v else assoc k l'
  end.

(** [tag.get(k)] *)
Definition get (k : string) (n : node) : option string :=
  match n with
  | Elem _ a _ => assoc k a
  | Text _ => None
  end.

(** [tag.get(k, d)] *)
Definition get_default (k d : string) (n : node) : string :=
  match get k n with
  | Some v => v
  | None => d
  end.

(** [tag.get(k)] read as a condition: present and not empty *)
Definition get_truthy (k : string) (n : node) : option string :=
  match get k n with
  | Some v => if truthy v then Some v else None
  | None => None
  end.

(** [tag.get('class', [])]: the class attribute is a list of names. *)
Definition classes (n : node) : list string :=
  match get "class" n with
  | Some v => words v
  | None => []
  end.

Definition mem (x : string) (l : list string) : bool :=
  existsb (String.eqb x) l.

Definition tag_is (name : string) (n : node) : bool :=
  match n with
  | Elem name' _ _ => (name' =? name)%string
  | Text _ => false
  end.

(** [attrs={k: v}] for a single-valued attribute *)
Definition attr_is (k v : string) (n : node) : bool :=
  match get k n with
  | Some v' => (v' =? v)%string
  | None => false
  end.

(** [attrs={k: f}] for a predicate or a compiled pattern [f] *)
Definition attr_sat (k : string) (f : string -> bool) (n : node) : bool :=
  match get k n with
  | Some v => f v
  | None => false
  end.

(** [class_=c]: one of the names is [c], or the names joined by single
    spaces read [c]. *)
Definition class_is (c : string) (n : node) : bool :=
  match get "class" n with
  | Some v => mem c (words v) || (join " " (words v) =? c)%string
  | None => false
  end.

(** The selector [.c1.c2...]: every name is among the classes. *)
Definition css_classes (cs : list string) (n : node) : bool :=
  match n with
  | Elem _ _ _ => forallb (fun c => mem c (classes n)) cs
  | Text _ => false
  end.

(** [tag.find_all(..., recursive=...)] with the filter [p] *)
Definition find_all (p : node -> bool) (recursive : bool) (n : node)
  : list node :=
  filter p (if recursive then descendants n else children n).

(** [tag.find(...)] *)
Definition find (p : node -> bool) (n : node) : option node :=
  hd_error (find_all p true n).

(** [tag.select(selector)] and [tag.select_one(selector)] for a
    selector without combinators *)
Definition select (p : node -> bool) (n : node) : list node :=
  find_all p true n.

Definition select_one (p : node -> bool) (n : node) : option node :=
  hd_error (select p n).

(** The text pieces below [n], in document order. *)
Definition strings (n : node) : list string :=
  flat_map (fun d => match d with Text s => [s] | Elem _ _ _ => [] end)
           (descendants n).

(** [tag.text] *)
Definition text (n : node) : string := String.concat "" (strings n).

(** [tag.get_text(separator=sep, strip=True)] *)
Definition get_text_strip (sep : string) (n : node) : string :=
  join sep (filter truthy (map strip (strings n))).

End Soup.

(** ** The class [TGStatParser] *)

Module TGStat.
Import PyStr PyNum Re Soup.

Definition BASE_URL : string := "https://tgstat.ru".
Definition SEARCH_URL : string := BASE_URL ++ "/channels/search".

(** [_parse_number]: parses numbers like '2m', '38.2k', '9279489'. *)
Definition _parse_number (text : string) : result (option Z) :=
  let text := replace " " "" (replace "," "." (strip (lower text))) in
  if negb (truthy text) || (text =? "n/a")%string || (text =? "0")%string then Ok (Some 0)
  else
    try_except
      (n <- (if contains_char "m" text then
               x <- py_float (replace "m" "" text) ;;
               int_of_float (fmul_int x 1000000)
             else if contains_char "k" text then
               x <- py_float (replace "k" "" text) ;;
               int_of_float (fmul_int x 1000)
             else
               try_except (py_int text) ValueError
                          (x <- py_float text ;; int_of_float x)) ;;
       Ok (Some n))
      ValueError
      (Ok None).



(** *** Channel cards *)

(** The dictionary [channel_info]. *)
Record channel_info : Type := {
  tgstat_url : string;
  username : option string;
  title : string;
  avatar_url : option string;
  subscribers : option Z;
  subscribers_str : string;
  avg_reach : option Z;
  avg_reach_str : string;
  ci_index : option Z;
  ci_index_str : string;
  category : string
}.

(** [x.attr] on the result of a query that may have found nothing *)
Definition deref {A} (o : option A) : result A :=
  match o with
  | Some a => Ok a
  | None => Raise AttributeError
  end.

(** ['https:' + url] for a protocol-relative [url] *)
Definition absolute_scheme (url : string) : string :=
  if startswith "//" url then "https:" ++ url else url.

(** [card.find('a', href=re.compile(r'/channel/(@[\w_]+|[\w\d\-]+)/stat'))] *)
Definition stat_link (card : node) : option node :=
  find (fun n => tag_is "a" n
                 && attr_sat "href" (matches stat_link_re) n)
       card.

(** One of the three statistics columns: the text of its [h4], with
    the spaces removed when [squeeze] is set, and its value.  A missing
    [h4] leaves the previous content [old] in place. *)
Definition stat_column (squeeze : bool) (col : node) (old : option Z * string)
  : result (option Z * string) :=
  try_except
    (h4 <- deref (select_one (tag_is "h4") col) ;;
     let t := strip (text h4) in
     let t := if squeeze then replace " " "" t else t in
     v <- _parse_number t ;;
     Ok (v, t))
    AttributeError
    (Ok old).

(** The body of the loop over the cards: [Ok None] when the card is
    skipped for want of a link, [Raise e] when an exception leaves the
    [try] block. *)
Definition parse_channel_card (card : node) : result (option channel_info) :=
  match stat_link card with
  | None => Ok None
  | Some link_tag =>
      let href := match get "href" link_tag with Some h => h | None => "" end in
      let url :=
        if startswith "/" href then BASE_URL ++ href
        else if startswith "http" href then href
        else BASE_URL ++ "/" ++ href in
      let user :=
        match search stat_link_re href with
        | Some m => Some (group1 m)
        | None => None
        end in
      let title_ :=
        match find (fun n => tag_is "div" n
                             && class_is "text-truncate font-16 text-dark mt-n1" n) card with
        | Some t => strip (text t)
        | None => "N/A"
        end in
      let avatar :=
        match find (fun n => tag_is "img" n && class_is "img-thumbnail" n) card with
        | Some img => option_map absolute_scheme (get_truthy "src" img)
        | None => None
        end in
      let none := (@None Z, "N/A") in
      stats <-
        match select_one (css_classes ["col"; "col-12"; "col-sm-7"]) card with
        | Some stats_container =>
            match select (css_classes ["col"; "col-4"; "pt-1"]) stats_container with
            | [c0; c1; c2] =>
                subs <- stat_column true c0 none ;;
                reach <- stat_column false c1 none ;;
                ci <- stat_column true c2 none ;;
                Ok (subs, reach, ci)
            | _ => Ok (none, none, none)
            end
        | None => Ok (none, none, none)
        end ;;
      let '(subs, reach, ci) := stats in
      subs <-
        match fst subs with
        | Some _ => Ok subs
        | None =>
            match find (fun n => tag_is "div" n
                                 && class_is "text-truncate font-14 text-dark" n) card with
            | Some subs_div =>
                match search leading_number_re (text subs_div) with
                | Some m =>
                    let t := replace " " "" (strip (group1 m)) in
                    v <- _parse_number t ;;
                    Ok (v, t)
                | None => Ok subs
                end
            | None => Ok subs
            end
        end ;;
      let category_ :=
        match find (fun n => tag_is "span" n
                             && class_is "border rounded bg-light px-1" n) card with
        | Some t => strip (text t)
        | None => "N/A"
        end in
      Ok (Some {| tgstat_url := url; username := user; title := title_;
                  avatar_url := avatar;
                  subscribers := fst subs; subscribers_str := snd subs;
                  avg_reach := fst reach; avg_reach_str := snd reach;
                  ci_index := fst ci; ci_index_str := snd ci;
                  category := category_ |})
  end.

(** [bool(link_tag)] for the link of a card *)
Definition has_stat_link (card : node) : bool :=
  match stat_link card with
  | Some _ => true
  | None => false
  end.

(** What one card adds to [channels]: [except Exception: continue]
    drops a card whose parsing raised. *)
Definition card_records (card : node) : list channel_info :=
  match parse_channel_card card with
  | Ok (Some info) => [info]
  | Ok None => []
  | Raise _ => []
  end.

(** The cards of a parsed search fragment: the direct children of the
    list holder (or of the document), else any [peer-item-row]. *)
Definition channel_cards (soup : node) : list node :=
  let is_card := fun n => tag_is "div" n && class_is "peer-item-row" n in
  let container :=
    match find (fun n => tag_is "div" n && attr_is "id" "channels-list-holder" n) soup with
    | Some c => c
    | None => soup
    end in
  match find_all is_card false container with
  | [] => find_all is_card true soup
  | cards => cards
  end.

(** *** Post cards *)

(** The keys that [post_data] receives only when the post has a
    [post-body]. *)
Record post_body : Type := {
  post_text : string;
  has_photo : bool;
  has_video : bool;
  has_document : bool;
  image_url : option string;
  video_url : option string
}.

(** The dictionary [post_data]; [post_id] is its key ['id'].  The keys
    that the source sets under a condition are options. *)
Record post_data : Type := {
  post_id : option Z;
  datetime_str : option string;
  body : option post_body;
  views : option Z;
  views_str : string;
  shares : option Z;
  shares_str : string;
  forwards : option Z;
  forwards_str : string;
  tgstat_post_url : option string;
  telegram_post_url : option string
}.

(** [_extract_post_id]: the numeric post ID of a tag id like
    'post-71374303853'. *)
Definition _extract_post_id (post_tag : node) : result (option Z) :=
  let post_id_str := get_default "id" "" post_tag in
  match search post_id_re post_id_str with
  | Some m => n <- py_int (group1 m) ;; Ok (Some n)
  | None => Ok None
  end.

Definition newline : string := String "010" "".

Definition parse_post_body (b : node) : post_body :=
  let text_parts := find_all (fun n => tag_is "div" n && class_is "post-text" n) true b in
  let div_with := fun c => find (fun n => tag_is "div" n && class_is c n) b in
  let present := fun o : option node =>
                   match o with Some _ => true | None => false end in
  {| post_text :=
       strip (join newline (filter truthy (map (get_text_strip newline) text_parts)));
     has_photo := present (div_with "post-img") || present (div_with "carousel");
     has_video := present (div_with "wrapper-thumbnail")
                  || present (div_with "wrapper-video");
     has_document := mem "isDocument" (classes b);
     image_url :=
       match find (fun n => tag_is "img" n && class_is "post-img-img" n) b with
       | Some img => option_map absolute_scheme (get_truthy "src" img)
       | None => None
       end;
     video_url :=
       match find (tag_is "video") b with
       | Some video_tag =>
           match find (tag_is "source") video_tag with
           | Some source => option_map absolute_scheme (get_truthy "src" source)
           | None => None
           end
       | None => None
       end |}.

(** One statistic of the stats row: the element chosen by [sel], its
    text and its value. *)
Definition stat_button (sel : node -> bool) (stats_row : node)
  : result (option Z * string) :=
  match select_one sel stats_row with
  | Some b =>
      let t := strip (text b) in
      v <- _parse_number t ;;
      Ok (v, t)
  | None => Ok (None, "N/A")
  end.

(** The selector [name.btn[data-original-title*="tip"]] *)
Definition css_button (name tip : string) (n : node) : bool :=
  tag_is name n && css_classes ["btn"] n
  && attr_sat "data-original-title" (contains tip) n.

(** The body of the loop over the post cards; [Raise e] when an
    exception leaves the [try] block. *)
Definition parse_post_card (post_tag : node) : result post_data :=
  pid <- _extract_post_id post_tag ;;
  let datetime :=
    match find (fun n => tag_is "div" n && class_is "post-header" n) post_tag with
    | Some header =>
        Some match find (tag_is "small") header with
             | Some time_tag => strip (text time_tag)
             | None => "N/A"
             end
    | None => None
    end in
  let body_ :=
    option_map parse_post_body
               (find (fun n => tag_is "div" n && class_is "post-body" n) post_tag) in
  stats <-
    match select_one (css_classes ["col"; "col-12"; "d-flex"]) post_tag with
    | Some stats_row =>
        v <- stat_button (css_button "a" "Количество просмотров публикации") stats_row ;;
        s <- stat_button (css_button "a" "Поделились") stats_row ;;
        f <- stat_button (css_button "span" "Пересылок всего") stats_row ;;
        Ok (v, s, f)
    | None => Ok ((None, "N/A"), (None, "N/A"), (None, "N/A"))
    end ;;
  let '(v, s, f) := stats in
  let permalink :=
    match find (fun n => tag_is "a" n
                         && attr_is "data-original-title"
                                    "Постоянная ссылка на публикацию" n) post_tag with
    | Some link_icon =>
        option_map (fun href => if startswith "/" href then BASE_URL ++ href else href)
                   (get_truthy "href" link_icon)
    | None => None
    end in
  let telegram :=
    match find (fun n => tag_is "a" n && class_is "dropdown-item" n
                         && attr_is "target" "_blank" n
                         && attr_sat "href" (matches telegram_link_re) n) post_tag with
    | Some dropdown_link => get "href" dropdown_link
    | None =>
        match find (fun n => tag_is "a" n
                             && attr_sat "title" (contains "Открыть в Telegram") n)
                   post_tag with
        | Some tg_link_icon => get_truthy "href" tg_link_icon
        | None => None
        end
    end in
  Ok {| post_id := pid; datetime_str := datetime; body := body_;
        views := fst v; views_str := snd v;
        shares := fst s; shares_str := snd s;
        forwards := fst f; forwards_str := snd f;
        tgstat_post_url := permalink; telegram_post_url := telegram |}.

(** What one post card adds to [posts]: [except Exception: continue]
    drops a card whose parsing raised. *)
Definition post_records (post_tag : node) : list post_data :=
  match parse_post_card post_tag with
  | Ok post => [post]
  | Raise _ => []
  end.

(** The post cards of a parsed fragment: the direct children of the
    [posts-list] (or of the document), else any [post-container]. *)
Definition post_containers (soup : node) : list node :=
  let is_post := fun n => tag_is "div" n && class_is "post-container" n in
  let container :=
    match find (fun n => tag_is "div" n && class_is "posts-list" n) soup with
    | Some c => c
    | None => soup
    end in
  match find_all is_post false container with
  | [] => find_all is_post true soup
  | tags => tags
  end.

(** *** The HTTP peer and the session *)

(** The JSON envelope of an AJAX reply, key by key; a key that is
    absent is [None].  Page numbers, offsets and post ids are JSON
    numbers. *)
Record envelope : Type := {
  status : option string;
  html : option string;
  hasMore : option bool;
  nextPage : option Z;
  nextOffset : option Z
}.

(** What the session sends.  A POST is listed with the fields of its
    form that vary. *)
Inductive request : Type :=
| GET (url : string)
| POST_search (token : option string) (query sort : string) (page offset : Z)
| POST_posts (token : option string) (channel : string)
             (last_post_id : option Z) (offset : Z).

(** The peer: its answer to the [n]-th exchange of the session.  A GET
    answers with the body of the page, a POST with the decoded
    envelope; [None] stands for a request that raised (transport
    error, HTTP error status, undecodable JSON). *)
Record world : Type := {
  http_get : nat -> string -> option string;
  http_post : nat -> request -> option envelope
}.

(** The state of a [TGStatParser]: the form token, and the requests
    sent so far (oldest first).  The cookie jar only feeds log
    messages and is left out, as are the politeness delays. *)
Record session : Type := {
  csrf_token_form : option string;
  sent : list request
}.

(** A session before its first refresh. *)
Definition new_session : session :=
  {| csrf_token_form := None; sent := [] |}.

Definition set_token (t : option string) (s : session) : session :=
  {| csrf_token_form := t; sent := sent s |}.

Definition record (r : request) (s : session) : session :=
  {| csrf_token_form := csrf_token_form s; sent := sent s ++ [r] |}.

(** [bool(self.csrf_token_form)] *)
Definition has_token (s : session) : bool :=
  match csrf_token_form s with
  | Some t => truthy t
  | None => false
  end.

(** The value of a function that returns a list or [None]. *)
Inductive outcome (A : Type) : Type :=
| Failure                (* [None] *)
| Found (l : list A).

Arguments Failure {A}.
Arguments Found {A} l.

(** [l[:n]] *)
Definition slice_to {A} (l : list A) (n : Z) : list A :=
  if 0 <=? n then firstn (Z.to_nat n) l
  else firstn (Z.to_nat (Z.of_nat (List.length l) + n)) l.

Definition default {A} (d : A) (o : option A) : A :=
  match o with
  | Some a => a
  | None => d
  end.

Definition is_nil {A} (l : list A) : bool :=
  match l with
  | [] => true
  | _ => false
  end.

(** [bool(n)] for an id that may be [None] *)
Definition id_truthy (i : option Z) : bool :=
  match i with
  | Some z => negb (z =? 0)
  | None => false
  end.

(** [not result or result.get('status') != 'ok'], read positively: the
    envelope of a reply that arrived with status ['ok']. *)
Definition ok_envelope (r : option envelope) : option envelope :=
  match r with
  | Some e =>
      match status e with
      | Some st => if (st =? "ok")%string then Some e else None
      | None => None
      end
  | None => None
  end.

(** [url_to_visit or self.SEARCH_URL] *)
Definition refresh_url (url_to_visit : option string) : string :=
  match url_to_visit with
  | Some u => if truthy u then u else SEARCH_URL
  | None => SEARCH_URL
  end.

(** The [content] of the first [<meta name="csrf-token">], when the
    page has one and it carries that attribute. *)
Definition meta_token (soup : node) : option string :=
  match find (fun n => tag_is "meta" n && attr_is "name" "csrf-token" n) soup with
  | Some meta_tag => get "content" meta_tag
  | None => None
  end.

(** The [value] of the first [<input name="_tgstat_csrk">], likewise. *)
Definition input_token (soup : node) : option string :=
  match find (fun n => tag_is "input" n && attr_is "name" "_tgstat_csrk" n) soup with
  | Some input_tag => get "value" input_tag
  | None => None
  end.

Section Parser.

(** [BeautifulSoup(text, 'html.parser')] *)
Variable BeautifulSoup : string -> node.

Variable w : world.

(** [_parse_search_html] *)
Definition _parse_search_html (html_content : string) : list channel_info :=
  flat_map card_records (channel_cards (BeautifulSoup html_content)).

(** [_parse_posts_html] *)
Definition _parse_posts_html (html_content : string) : list post_data :=
  flat_map post_records (post_containers (BeautifulSoup html_content)).

(** [_refresh_csrf_token]: fetches a page and extracts the token. *)
Definition _refresh_csrf_token (url_to_visit : option string) (s : session)
  : bool * session :=
  let url := refresh_url url_to_visit in
  let s1 := record (GET url) s in
  match http_get w (List.length (sent s)) url with
  | None => (false, set_token None s1)
  | Some page =>
      let soup := BeautifulSoup page in
      match meta_token soup with
      | Some token => (true, set_token (Some token) s1)
      | None =>
          match input_token soup with
          | Some token => (true, set_token (Some token) s1)
          | None => (false, set_token None s1)
          end
      end
  end.

(** The two ways in which a refresh fails: the page cannot be
    fetched, or it shows the token in neither place. *)
Definition refresh_fails (url_to_visit : option string) (s : session) : Prop :=
  let reply := http_get w (List.length (sent s)) (refresh_url url_to_visit) in
  reply = None
  \/ exists page, reply = Some page
                  /\ meta_token (BeautifulSoup page) = None
                  /\ input_token (BeautifulSoup page) = None.

(** [__init__] *)
Definition __init__ : result session :=
  let '(ok, s1) := _refresh_csrf_token None new_session in
  if ok then Ok s1 else Raise ConnectionError.

(** [if not self.csrf_token_form: if not self._refresh_csrf_token(url): ...] *)
Definition ensure_token (url : option string) (s : session) : bool * session :=
  if has_token s then (true, s) else _refresh_csrf_token url s.

(** [_make_search_request] *)
Definition _make_search_request (query : string) (page offset : Z)
           (sort : string) (s : session) : option envelope * session :=
  let '(ok, s1) := ensure_token None s in
  if ok then
    let r := POST_search (csrf_token_form s1) query sort page offset in
    (http_post w (List.length (sent s1)) r, record r s1)
  else (None, s1).

(** The loop of [search_channels].  [fuel] bounds the number of
    requests; [None] is returned when it runs out. *)
Fixpoint search_loop (fuel : nat) (query : string) (max_pages : Z)
         (sort : string) (all_channels : list channel_info)
         (current_page current_offset : Z) (has_more : bool) (s : session)
  : option (outcome channel_info * session) :=
  if (current_page <? max_pages) && has_more then
    match fuel with
    | O => None
    | S fuel' =>
        let '(search_result, s1) :=
          _make_search_request query current_page current_offset sort s in
        match ok_envelope search_result with
        | None =>
            if current_page =? 0 then Some (Failure, s1)
            else Some (Found all_channels, s1)
        | Some e =>
            let html_content := default "" (html e) in
            if negb (truthy html_content) then Some (Found all_channels, s1)
            else
              let parsed_channels := _parse_search_html html_content in
              if is_nil parsed_channels && (current_page =? 0)
              then Some (Found [], s1)
              else
                search_loop fuel' query max_pages sort
                            (all_channels ++ parsed_channels)
                            (default (current_page + 1) (nextPage e))
                            (default (current_offset + 30) (nextOffset e))
                            (default false (hasMore e))
                            s1
        end
    end
  else Some (Found all_channels, s).

(** [search_channels] *)
Definition search_channels (fuel : nat) (query : string) (max_pages : Z)
           (sort : string) (s : session)
  : option (outcome channel_info * session) :=
  search_loop fuel query max_pages sort [] 0 0 true s.

Definition channel_url (channel_username_or_id : string) : string :=
  BASE_URL ++ "/channel/@" ++ lstrip_char "@" channel_username_or_id.

(** [_get_initial_posts_html] *)
Definition _get_initial_posts_html (channel_username_or_id : string)
           (s : session) : option string * session :=
  let url := channel_url channel_username_or_id in
  (http_get w (List.length (sent s)) url, record (GET url) s).

(** [_make_more_posts_request] *)
Definition _make_more_posts_request (channel_username_or_id : string)
           (last_post_id : option Z) (offset : Z) (s : session)
  : option envelope * session :=
  let '(ok, s1) := ensure_token (Some (channel_url channel_username_or_id)) s in
  if ok then
    let r := POST_posts (csrf_token_form s1) channel_username_or_id
                        last_post_id offset in
    (http_post w (List.length (sent s1)) r, record r s1)
  else (None, s1).

(** [all_posts[-1].get('id')] *)
Definition last_id (posts : list post_data) : option Z :=
  last (map post_id posts) None.

(** The [while] loop of [get_channel_posts]: the list [all_posts] and
    the session when the loop is left. *)
Fixpoint posts_loop (fuel : nat) (channel_username_or_id : string)
         (max_posts : Z) (all_posts : list post_data)
         (last_post_id : option Z) (current_offset : Z) (has_more : bool)
         (s : session) : option (list post_data * session) :=
  if (Z.of_nat (List.length all_posts) <? max_posts) && has_more
     && id_truthy last_post_id then
    match fuel with
    | O => None
    | S fuel' =>
        let '(more_posts_result, s1) :=
          _make_more_posts_request channel_username_or_id last_post_id
                                   current_offset s in
        match ok_envelope more_posts_result with
        | None => Some (all_posts, s1)
        | Some e =>
            let html_content := default "" (html e) in
            if negb (truthy html_content) then Some (all_posts, s1)
            else
              let new_posts := _parse_posts_html html_content in
              if is_nil new_posts then Some (all_posts, s1)
              else
                let all_posts' := (all_posts ++ new_posts)%list in
                let last_post_id' :=
                  match nextPage e with
                  | None => last_id new_posts
                  | Some next_page_id => Some next_page_id
                  end in
                let current_offset' :=
                  default (current_offset + Z.of_nat (List.length new_posts))
                          (nextOffset e) in
                if negb (id_truthy last_post_id') then Some (all_posts', s1)
                else
                  posts_loop fuel' channel_username_or_id max_posts all_posts'
                             last_post_id' current_offset'
                             (default false (hasMore e)) s1
        end
    end
  else Some (all_posts, s).

(** [get_channel_posts] *)
Definition get_channel_posts (fuel : nat) (channel_username_or_id : string)
           (max_posts : Z) (s : session)
  : option (outcome post_data * session) :=
  if negb (truthy channel_username_or_id) then Some (Failure, s)
  else
    let '(initial_html, s1) := _get_initial_posts_html channel_username_or_id s in
    match initial_html with
    | None => Some (Failure, s1)
    | Some page =>
        if negb (truthy page) then Some (Failure, s1)
        else
          let all_posts := _parse_posts_html page in
          if is_nil all_posts then Some (Found [], s1)
          else
            match posts_loop fuel channel_username_or_id max_posts all_posts
                             (last_id all_posts)
                             (Z.of_nat (List.length all_posts)) true s1 with
            | Some (all_posts', s2) => Some (Found (slice_to all_posts' max_posts), s2)
            | None => None
            end
    end.

(** What the reply to a load-more request adds to [all_posts]. *)
Definition batch_of (reply : option envelope) : list post_data :=
  match ok_envelope reply with
  | Some e =>
      let html_content := default "" (html e) in
      if truthy html_content then _parse_posts_html html_content else []
  | None => []
  end.

(** The posts delivered in reply to the requests [l], of which the
    first is the [n]-th exchange of the session. *)
Fixpoint batches (n : nat) (l : list request) : list post_data :=
  match l with
  | [] => []
  | r :: l' =>
      match r with
      | POST_posts _ _ _ _ => batch_of (http_post w n r)
      | _ => []
      end ++ batches (S n) l'
  end.

End Parser.

End TGStat.

(** ** Sample documents and peers *)

Module Examples.
Import PyStr Soup TGStat.

Definition div (class : string) (inner : list node) : node :=
  Elem "div" [("class", class)] inner.

Definition document (inner : list node) : node :=
  Elem "[document]" [] inner.

Definition stat_col (value label : string) : node :=
  div "col col-4 pt-1" [Elem "h4" [] [Text value]; div "text-muted" [Text label]].

(** A search result as the site renders it. *)
Definition good_card : node :=
  div "card peer-item-row py-2 mb-2"
      [ div "row"
            [ div "col col-12 col-sm-5"
                  [ Elem "a" [("href", "/channel/@rian_ru/stat")]
                         [ Elem "img" [("class", "img-thumbnail rounded-circle");
                                       ("src", "//img.example/x.png")] [];
                           div "text-truncate font-16 text-dark mt-n1"
                               [Text " RIA Novosti "] ];
                    Elem "span" [("class", "border rounded bg-light px-1")]
                         [Text "News"] ];
              div "col col-12 col-sm-7"
                  [ div "row"
                        [ stat_col " 9 279 489 " "subscribers";
                          stat_col "38.2k" "reach";
                          stat_col "2m" "citation index" ] ] ] ].

(** The same kind of card without the link to a stat page. *)
Definition linkless_card : node :=
  div "card peer-item-row py-2 mb-2"
      [ div "row"
            [ div "col col-12 col-sm-5"
                  [ Elem "a" [("href", "/channel/@rian_ru")]
                         [ div "text-truncate font-16 text-dark mt-n1"
                               [Text "No stat page"] ] ] ] ].

Definition good_record : channel_info :=
  {| tgstat_url := "https://tgstat.ru/channel/@rian_ru/stat";
     username := Some "@rian_ru";
     title := "RIA Novosti";
     avatar_url := Some "https://img.example/x.png";
     subscribers := Some 9279489; subscribers_str := "9279489";
     avg_reach := Some 38200; avg_reach_str := "38.2k";
     ci_index := Some 2000000; ci_index_str := "2m";
     category := "News" |}.

Definition decimal (n : Z) : string := NilZero.string_of_int (Z.to_int n).

(** A post card with the id [post-<n>] and a views counter. *)
Definition post_card (n : Z) : node :=
  Elem "div" [("class", "post-container"); ("id", "post-" ++ decimal n)]
       [ div "post-header" [Elem "small" [] [Text " 4 Nov, 12:00 "]];
         div "post-body" [div "post-text" [Text ("text of " ++ decimal n)]];
         div "col col-12 d-flex"
             [ Elem "a" [("class", "btn btn-light");
                         ("data-original-title", "Количество просмотров публикации")]
                    [Text " 1.5k "] ] ].

(** A post card whose container id is not of the form [post-<digits>]. *)
Definition promo_card : node :=
  Elem "div" [("class", "post-container"); ("id", "promo")]
       [ div "post-body" [div "post-text" [Text "sponsored"]] ].

(** The ids [first], [first - 1], ... ([count] of them). *)
Fixpoint ids_down (count : nat) (first : Z) : list Z :=
  match count with
  | O => []
  | S c => first :: ids_down c (first - 1)
  end.

Definition posts_page (first : Z) : node :=
  document [div "posts-list" (map post_card (ids_down 20 first))].

Definition landing_page : node :=
  document [Elem "meta" [("name", "csrf-token"); ("content", "tok-1")] []].

(** The pages of the sample peers, by the text that stands for them. *)
Definition sample_soup (page : string) : node :=
  if (page =? "landing")%string then landing_page
  else if (page =? "results")%string then
    document [Elem "div" [("id", "channels-list-holder")] [good_card; linkless_card]]
  else if (page =? "no results")%string then
    document [Elem "div" [("id", "channels-list-holder")] [Text "nothing found"]]
  else if (page =? "feed 160")%string then posts_page 160
  else if (page =? "feed 140")%string then posts_page 140
  else if (page =? "feed 120")%string then posts_page 120
  else if (page =? "promo")%string then document [promo_card]
  else if (page =? "headless feed")%string then
    document [div "posts-list" [post_card 9; promo_card]]
  else document [].

Definition ok_reply (page : string) (more : bool) : envelope :=
  {| status := Some "ok"; html := Some page; hasMore := Some more;
     nextPage := None; nextOffset := None |}.

(** A search peer with three pages, the second of which lists nothing. *)
Definition gap_peer : world :=
  {| http_get := fun _ _ => Some "landing";
     http_post := fun _ r =>
       match r with
       | POST_search _ _ _ 0 _ => Some (ok_reply "results" true)
       | POST_search _ _ _ 1 _ => Some (ok_reply "no results" true)
       | POST_search _ _ _ 2 _ => Some (ok_reply "results" false)
       | _ => None
       end |}.

(** A search peer whose first envelope names page 0 as the next page,
    and which then stops answering. *)
Definition reset_peer : world :=
  {| http_get := fun _ _ => Some "landing";
     http_post := fun _ r =>
       match r with
       | POST_search _ _ _ 0 0 =>
           Some {| status := Some "ok"; html := Some "results";
                   hasMore := Some true; nextPage := Some 0;
                   nextOffset := Some 30 |}
       | _ => None
       end |}.

(** A search peer that finds nothing. *)
Definition barren_peer : world :=
  {| http_get := fun _ _ => Some "landing";
     http_post := fun _ _ => Some (ok_reply "no results" false) |}.

(** A peer that does not answer at all. *)
Definition dead_peer : world :=
  {| http_get := fun _ _ => None;
     http_post := fun _ _ => None |}.

(** A channel whose feed comes in batches of twenty posts, keyed by
    the id of the last post already delivered. *)
Definition feed_peer : world :=
  {| http_get := fun _ url =>
       if (url =? SEARCH_URL)%string then Some "landing" else Some "feed 160";
     http_post := fun _ r =>
       match r with
       | POST_posts _ _ (Some 141) _ => Some (ok_reply "feed 140" true)
       | POST_posts _ _ (Some 121) _ => Some (ok_reply "feed 120" true)
       | _ => None
       end |}.

(** A channel whose landing page ends with a card without a post id. *)
Definition headless_peer : world :=
  {| http_get := fun _ url =>
       if (url =? SEARCH_URL)%string then Some "landing" else Some "headless feed";
     http_post := fun _ _ => Some (ok_reply "feed 140" true) |}.

(** The session that [__init__] leaves behind on these peers. *)
Definition fresh : session :=
  {| csrf_token_form := Some "tok-1"; sent := [GET SEARCH_URL] |}.

End Examples.

(** ** Vocabulary for the statements *)

Module Measures.
Import PyStr PyNum Soup TGStat.

(** Every character of [s] satisfies [p]. *)
Fixpoint all_chars (p : ascii -> bool) (s : string) : bool :=
  match s with
  | EmptyString => true
  | String c s' => p c && all_chars p s'
  end.

(** The number that a run of decimal digits denotes, continuing from
    [acc]. *)
Fixpoint decimal_from (acc : Z) (s : string) : Z :=
  match s with
  | EmptyString => acc
  | String c s' => decimal_from (10 * acc + (Z.of_nat (nat_of_ascii c) - 48)) s'
  end.

Definition decimal_value (s : string) : Z := decimal_from 0 s.

Definition is_get (r : request) : bool :=
  match r with
  | GET _ => true
  | _ => false
  end.

Definition is_search_post (r : request) : bool :=
  match r with
  | POST_search _ _ _ _ _ => true
  | _ => false
  end.

Definition is_posts_post (r : request) : bool :=
  match r with
  | POST_posts _ _ _ _ => true
  | _ => false
  end.

(** The token that a POST carries. *)
Definition token_of (r : request) : option (option string) :=
  match r with
  | GET _ => None
  | POST_search t _ _ _ _ => Some t
  | POST_posts t _ _ _ => Some t
  end.

(** The three statistics that a post card may show in its stats row. *)
Definition post_stat_selectors : list (node -> bool) :=
  [ css_button "a" "Количество просмотров публикации";
    css_button "a" "Поделились";
    css_button "span" "Пересылок всего" ].

(** The text of one of the statistics of the card makes the number
    normalizer raise. *)
Definition statistic_overflows (post_tag : node) : Prop :=
  exists stats_row sel,
    select_one (css_classes ["col"; "col-12"; "d-flex"]) post_tag = Some stats_row
    /\ In sel post_stat_selectors
    /\ stat_button sel stats_row = Raise OverflowError.

(** A request that is not a POST without a token. *)
Definition with_token (q : request) : Prop := token_of q <> Some None.

(** What the reply to a search request adds to [all_channels]. *)
Definition page_of (BeautifulSoup : string -> node) (reply : option envelope)
  : list channel_info :=
  match ok_envelope reply with
  | Some e =>
      let html_content := default "" (html e) in
      if truthy html_content then _parse_search_html BeautifulSoup html_content
      else []
  | None => []
  end.

(** The channels delivered in reply to the requests [l], of which the
    first is the [n]-th exchange of the session. *)
Fixpoint pages (BeautifulSoup : string -> node) (w : world) (n : nat)
         (l : list request) : list channel_info :=
  match l with
  | [] => []
  | r :: l' =>
      match r with
      | POST_search _ _ _ _ _ => page_of BeautifulSoup (http_post w n r)
      | _ => []
      end ++ pages BeautifulSoup w (S n) l'
  end.

End Measures.

(** ** Further sample peers *)

Module Peers.
Import TGStat Examples.

(** A search peer that always answers with a page of results and names
    page 0 as the next page. *)
Definition looping_peer : world :=
  {| http_get := fun _ _ => Some "landing";
     http_post := fun _ _ =>
       Some {| status := Some "ok"; html := Some "results";
               hasMore := Some true; nextPage := Some 0;
               nextOffset := None |} |}.

(** A search peer with results on every page and no continuation data
    beyond [hasMore]. *)
Definition plain_peer : world :=
  {| http_get := fun _ _ => Some "landing";
     http_post := fun _ _ => Some (ok_reply "results" true) |}.

(** A peer whose landing page shows an empty token. *)
Definition empty_token_peer : world :=
  {| http_get := fun _ _ => Some "empty token";
     http_post := fun _ _ => Some (ok_reply "results" false) |}.

(** The pages of [sample_soup], and one whose token is empty. *)
Definition sample_soup' (page : string) : Soup.node :=
  if (page =? "empty token")%string then
    document [Soup.Elem "meta" [("name", "csrf-token"); ("content", "")] []]
  else sample_soup page.

End Peers.

Import PyStr PyNum Re Soup TGStat Examples Measures Peers.

(** * Properties *)

(** ** Exceptions of the number conversions *)

Ltac break_match :=
  match goal with
  | H : context [match ?x with _ => _ end] |- _ => destruct x eqn:?
  | |- context [match ?x with _ => _ end] => destruct x eqn:?
  end.

Lemma py_int_raises (s : string) (e : exn) :
  py_int s = Raise e -> e = ValueError.
Proof.
  unfold py_int. intros H.
  repeat break_match; congruence.
Qed.

Lemma py_float_raises (s : string) (e : exn) :
  py_float s = Raise e -> e = ValueError.
Proof.
  unfold py_float. intros H.
  repeat break_match; congruence.
Qed.

Lemma int_of_float_raises (x : float) (e : exn) :
  int_of_float x = Raise e -> e = OverflowError \/ e = ValueError.
Proof.
  destruct x; simpl; intros H; inversion H; auto.
Qed.

Lemma scaled_float_raises (s : string) (k : Z) (e : exn) :
  (x <- py_float s ;; int_of_float (fmul_int x k)) = Raise e ->
  e = OverflowError \/ e = ValueError.
Proof.
  destruct (py_float s) eqn:F; simpl; intros H.
  - eapply int_of_float_raises; eassumption.
  - inversion H; subst. right. eapply py_float_raises; eassumption.
Qed.

(** The only exception that leaves [_parse_number] is [OverflowError]. *)
Lemma parse_number_raises (text : string) (e : exn) :
  _parse_number text = Raise e -> e = OverflowError.
Proof.
  unfold _parse_number.
  set (t := replace " " "" (replace "," "." (strip (lower text)))).
  destruct (negb (truthy t) || (t =? "n/a")%string || (t =? "0")%string);
    [discriminate |].
  set (v := if contains_char "m" t then _ else _).
  assert (Hv : forall e', v = Raise e' -> e' = OverflowError \/ e' = ValueError).
  { subst v. intros e' H.
    destruct (contains_char "m" t); [eapply scaled_float_raises; eassumption |].
    destruct (contains_char "k" t); [eapply scaled_float_raises; eassumption |].
    destruct (py_int t) eqn:I; simpl in H; [discriminate |].
    apply py_int_raises in I; subst e0; simpl in H.
    destruct (py_float t) eqn:F; simpl in H.
    - eapply int_of_float_raises; eassumption.
    - inversion H; subst. right. eapply py_float_raises; eassumption. }
  destruct v as [n | e'] eqn:V; simpl; [discriminate |].
  destruct (Hv e' eq_refl) as [-> | ->]; simpl; congruence.
Qed.

(** [_parse_number] raises exactly when the float it converts is
    infinite; otherwise it returns an integer or [None]. *)
Lemma parse_number_cases (text : string) :
  (exists n, _parse_number text = Ok (Some n))
  \/ _parse_number text = Ok None
  \/ _parse_number text = Raise OverflowError.
Proof.
  destruct (_parse_number text) as [[n |] | e] eqn:H; eauto.
  apply parse_number_raises in H; subst; auto.
Qed.

(** C4. The number normalizer on the table of examples: "38.2k" is
    38200, "2m" is 2000000, "9279489" is 9279489, the empty text and
    "n/a" are 0, and "garbage" is none. *)
Theorem parse_number_examples :
  _parse_number "38.2k" = Ok (Some 38200)
  /\ _parse_number "2m" = Ok (Some 2000000)
  /\ _parse_number "9279489" = Ok (Some 9279489)
  /\ _parse_number "" = Ok (Some 0)
  /\ _parse_number "n/a" = Ok (Some 0)
  /\ _parse_number "garbage" = Ok None.
Proof.
  repeat split; vm_compute; reflexivity.
Qed.

(** C5. The number normalizer is not total: on the text "inf" the
    conversion [int(float(text))] raises [OverflowError], which the
    handler for [ValueError] does not catch, so the call raises instead
    of returning none. *)
Theorem parse_number_inf_raises :
  _parse_number "inf" = Raise OverflowError.
Proof.
  vm_compute. reflexivity.
Qed.

(** ** Extraction *)

Lemma card_records_linkless (card : node) :
  stat_link card = None -> card_records card = [].
Proof.
  intros H. unfold card_records, parse_channel_card. rewrite H. reflexivity.
Qed.

Lemma card_records_filter (cards : list node) :
  flat_map card_records cards
  = flat_map card_records (filter has_stat_link cards).
Proof.
  induction cards as [| c cards IH]; simpl; [reflexivity |].
  unfold has_stat_link at 1.
  destruct (stat_link c) eqn:L; simpl.
  - now rewrite IH.
  - now rewrite (card_records_linkless c L).
Qed.

Lemma card_records_parsed (card : node) (info : channel_info) :
  parse_channel_card card = Ok (Some info) -> card_records card = [info].
Proof.
  intros H. unfold card_records. now rewrite H.
Qed.

Lemma stat_button_raises (sel : node -> bool) (row : node) (e : exn) :
  stat_button sel row = Raise e -> e = OverflowError.
Proof.
  unfold stat_button.
  destruct (select_one sel row); [| discriminate].
  destruct (_parse_number _) eqn:P; simpl; [discriminate |].
  intros H; inversion H; subst. eapply parse_number_raises; eassumption.
Qed.

Lemma extract_post_id_unmatched (post_tag : node) :
  matches post_id_re (get_default "id" "" post_tag) = false ->
  _extract_post_id post_tag = Ok None.
Proof.
  unfold matches, _extract_post_id.
  destruct (search post_id_re _); [discriminate | reflexivity].
Qed.

(** A post card without a post id is parsed like any other; its id is
    [None]. *)
Lemma parse_post_card_unmatched (post_tag : node) :
  matches post_id_re (get_default "id" "" post_tag) = false ->
  (exists post, parse_post_card post_tag = Ok post /\ post_id post = None)
  \/ parse_post_card post_tag = Raise OverflowError.
Proof.
  intros H. unfold parse_post_card.
  rewrite (extract_post_id_unmatched _ H). simpl.
  destruct (select_one (css_classes ["col"; "col-12"; "d-flex"]) post_tag) as [row |];
    simpl; [| left; eexists; split; reflexivity].
  destruct (stat_button _ row) as [v | e] eqn:V; simpl;
    [| apply stat_button_raises in V; subst; now right].
  destruct (stat_button (css_button "a" "Поделились") row) as [sh | e] eqn:S; simpl;
    [| apply stat_button_raises in S; subst; now right].
  destruct (stat_button (css_button "span" _) row) as [f | e] eqn:F; simpl;
    [| apply stat_button_raises in F; subst; now right].
  left; eexists; split; reflexivity.
Qed.

(** A post card without a post id is kept whenever none of its
    statistics makes the number normalizer raise. *)
Lemma parse_post_card_kept (post_tag : node) :
  matches post_id_re (get_default "id" "" post_tag) = false ->
  ~ statistic_overflows post_tag ->
  exists post, parse_post_card post_tag = Ok post /\ post_id post = None.
Proof.
  intros H Hstats. unfold parse_post_card.
  rewrite (extract_post_id_unmatched _ H). cbn [rbind].
  destruct (select_one (css_classes ["col"; "col-12"; "d-flex"]) post_tag)
    as [row |] eqn:R; cbn [rbind]; [| eexists; split; reflexivity].
  assert (Hok : forall sel, In sel post_stat_selectors ->
                            exists v, stat_button sel row = Ok v).
  { intros sel Hin. destruct (stat_button sel row) as [v | e] eqn:V; [eauto |].
    exfalso. apply Hstats. exists row, sel. repeat split; trivial.
    pose proof (stat_button_raises _ _ _ V). now subst e. }
  destruct (Hok _ (or_introl eq_refl)) as [v ->].
  destruct (Hok _ (or_intror (or_introl eq_refl))) as [sh ->].
  destruct (Hok _ (or_intror (or_intror (or_introl eq_refl)))) as [f ->].
  cbn [rbind]. eexists; split; reflexivity.
Qed.

(** C1, as the code has it.  A channel card without a stat-page link
    adds no record and the other cards of the batch are still returned:
    the batch is what the cards with a link yield, so one well-formed
    card next to a linkless one gives exactly one record.  A post card
    whose container id is not of the form post-<digits> is not skipped
    on that account: whenever none of its statistics makes the number
    normalizer raise, it adds a record whose id is none. *)
Theorem extraction_skips_linkless_cards
  (BeautifulSoup : string -> node) (html_content : string)
  (good card post_tag : node) (info : channel_info)
  (Hgood : parse_channel_card good = Ok (Some info))
  (Hcard : stat_link card = None)
  (Hpost : matches post_id_re (get_default "id" "" post_tag) = false)
  (Hstats : ~ statistic_overflows post_tag) :
  card_records card = []
  /\ _parse_search_html BeautifulSoup html_content
     = flat_map card_records
                (filter has_stat_link (channel_cards (BeautifulSoup html_content)))
  /\ (channel_cards (BeautifulSoup html_content) = [good; card]
      \/ channel_cards (BeautifulSoup html_content) = [card; good] ->
      _parse_search_html BeautifulSoup html_content = [info])
  /\ exists post, parse_post_card post_tag = Ok post
                  /\ post_id post = None
                  /\ post_records post_tag = [post].
Proof.
  pose proof (card_records_linkless card Hcard) as Hnil.
  pose proof (card_records_parsed good info Hgood) as Hone.
  split; [exact Hnil |].
  split; [apply card_records_filter |].
  split.
  - unfold _parse_search_html.
    intros [-> | ->]; simpl; rewrite Hnil, Hone; reflexivity.
  - destruct (parse_post_card_kept post_tag Hpost Hstats) as [post [P I]].
    exists post. repeat split; trivial.
    unfold post_records. now rewrite P.
Qed.

Lemma extraction_skips_linkless_cards_witness :
  _parse_search_html sample_soup "results" = [good_record]
  /\ exists post, post_records promo_card = [post] /\ post_id post = None.
Proof.
  assert (Hstats : ~ statistic_overflows promo_card).
  { intros (row & sel & R & _). vm_compute in R. discriminate R. }
  destruct (extraction_skips_linkless_cards
              sample_soup "results" good_card linkless_card promo_card good_record
              eq_refl eq_refl eq_refl Hstats)
    as [_ [_ [Hbatch [post [_ [I R]]]]]].
  split.
  - apply Hbatch. left. reflexivity.
  - exists post. split; assumption.
Defined.

(** C1 as the claim words it fails for posts: a post card whose
    container id is [promo] yields a record, with no id. *)
Lemma post_without_id_is_kept :
  matches post_id_re (get_default "id" "" promo_card) = false
  /\ List.length (_parse_posts_html sample_soup "promo") = 1%nat
  /\ map post_id (_parse_posts_html sample_soup "promo") = [None].
Proof.
  repeat split; vm_compute; reflexivity.
Qed.

(** ** The token *)

Lemma refresh_false_iff (BeautifulSoup : string -> node) (w : world)
      (url_to_visit : option string) (s : session) :
  fst (_refresh_csrf_token BeautifulSoup w url_to_visit s) = false
  <-> refresh_fails BeautifulSoup w url_to_visit s.
Proof.
  unfold _refresh_csrf_token, refresh_fails.
  destruct (http_get w _ _) as [page |]; simpl.
  - destruct (meta_token (BeautifulSoup page)) eqn:M; simpl.
    + split; [discriminate |].
      intros [H | [p [H [M' _]]]]; [discriminate |].
      inversion H; subst. congruence.
    + destruct (input_token (BeautifulSoup page)) eqn:I; simpl.
      * split; [discriminate |].
        intros [H | [p [H [_ I']]]]; [discriminate |].
        inversion H; subst. congruence.
      * split; trivial. intros _. right. exists page. auto.
  - split; auto.
Qed.

Lemma refresh_false_token (BeautifulSoup : string -> node) (w : world)
      (url_to_visit : option string) (s : session) :
  fst (_refresh_csrf_token BeautifulSoup w url_to_visit s) = false ->
  csrf_token_form (snd (_refresh_csrf_token BeautifulSoup w url_to_visit s)) = None.
Proof.
  unfold _refresh_csrf_token.
  destruct (http_get w _ _) as [page |]; simpl; trivial.
  destruct (meta_token _); simpl; [discriminate |].
  destruct (input_token _); simpl; [discriminate | trivial].
Qed.

(** C8. When a token refresh fails (the page cannot be fetched, or
    neither the meta tag nor the hidden input yields a token) the
    refresh reports failure and the stored token is none.  The next
    authenticated request therefore starts with a new refresh: it posts
    only with the token which that refresh obtains, and posts nothing
    when that fails too.  A failure of the first refresh makes the
    constructor raise. *)
Theorem failed_refresh_clears_token
  (BeautifulSoup : string -> node) (w : world)
  (url_to_visit : option string) (s : session)
  (Hcause : refresh_fails BeautifulSoup w url_to_visit s) :
  let r := _refresh_csrf_token BeautifulSoup w url_to_visit s in
  fst r = false
  /\ csrf_token_form (snd r) = None
  /\ (forall query page offset sort,
        _make_search_request BeautifulSoup w query page offset sort (snd r)
        = let '(ok, s2) := _refresh_csrf_token BeautifulSoup w None (snd r) in
          if ok then
            let q := POST_search (csrf_token_form s2) query sort page offset in
            (http_post w (List.length (sent s2)) q, record q s2)
          else (None, s2))
  /\ (forall channel last_post_id offset,
        _make_more_posts_request BeautifulSoup w channel last_post_id offset (snd r)
        = let '(ok, s2) :=
            _refresh_csrf_token BeautifulSoup w (Some (channel_url channel)) (snd r) in
          if ok then
            let q := POST_posts (csrf_token_form s2) channel last_post_id offset in
            (http_post w (List.length (sent s2)) q, record q s2)
          else (None, s2))
  /\ (url_to_visit = None -> s = new_session ->
      __init__ BeautifulSoup w = Raise ConnectionError).
Proof.
  intros r.
  apply refresh_false_iff in Hcause. fold r in Hcause.
  pose proof (refresh_false_token _ _ _ _ Hcause) as Htok. fold r in Htok.
  assert (Hno : has_token (snd r) = false)
    by (unfold has_token; now rewrite Htok).
  repeat split; trivial.
  - intros. unfold _make_search_request, ensure_token. now rewrite Hno.
  - intros. unfold _make_more_posts_request, ensure_token. now rewrite Hno.
  - intros -> ->. unfold __init__.
    subst r. destruct (_refresh_csrf_token _ _ _ _) as [ok s1].
    simpl in Hcause. now subst ok.
Qed.

Lemma failed_refresh_clears_token_witness :
  __init__ sample_soup dead_peer = Raise ConnectionError.
Proof.
  destruct (failed_refresh_clears_token sample_soup dead_peer None new_session
                                        (or_introl eq_refl))
    as [_ [_ [_ [_ H]]]].
  apply H; reflexivity.
Defined.

(** ** Channel search *)

(** C10. With a page budget of zero [search_channels] sends no request
    and returns the empty list, which is also what a search returns
    whose first page lists no channel. *)
Theorem zero_page_budget_returns_empty
  (BeautifulSoup : string -> node) (w : world) (fuel : nat)
  (query sort : string) (s : session) :
  search_channels BeautifulSoup w fuel query 0 sort s = Some (Found [], s)
  /\ exists s', search_channels sample_soup barren_peer (S fuel) query 1 sort fresh
                = Some (Found [], s')
                /\ sent s' = [GET SEARCH_URL; POST_search (Some "tok-1") query sort 0 0].
Proof.
  split.
  - destruct fuel; reflexivity.
  - eexists. split; reflexivity.
Qed.

(** ** The post feed *)

Section Feed.

Variable BeautifulSoup : string -> node.
Variable w : world.

Lemma has_token_record (r : request) (s : session) :
  has_token (record r s) = has_token s.
Proof. reflexivity. Qed.

Lemma make_more_with_token (channel : string) (last_post_id : option Z)
      (offset : Z) (s : session) :
  has_token s = true ->
  _make_more_posts_request BeautifulSoup w channel last_post_id offset s
  = let r := POST_posts (csrf_token_form s) channel last_post_id offset in
    (http_post w (List.length (sent s)) r, record r s).
Proof.
  intros H. unfold _make_more_posts_request, ensure_token. now rewrite H.
Qed.

Lemma batches_app (l1 l2 : list request) (n : nat) :
  batches BeautifulSoup w n (l1 ++ l2)
  = (batches BeautifulSoup w n l1
     ++ batches BeautifulSoup w (n + List.length l1) l2)%list.
Proof.
  revert n. induction l1 as [| r l1 IH]; intros n; simpl.
  - now rewrite Nat.add_0_r.
  - rewrite IH, <- app_assoc. now rewrite Nat.add_succ_r.
Qed.

(** A load-more call extends the record of requests, and its reply is
    the only batch among what it sent. *)
Lemma make_more_sent (channel : string) (last_post_id : option Z)
      (offset : Z) (s : session) :
  exists reqs,
    sent (snd (_make_more_posts_request BeautifulSoup w channel last_post_id offset s)) = (sent s ++ reqs)%list
    /\ batches BeautifulSoup w (List.length (sent s)) reqs
       = batch_of BeautifulSoup (fst (_make_more_posts_request BeautifulSoup w channel last_post_id offset s)).
Proof.
  unfold _make_more_posts_request, ensure_token.
  destruct (has_token s).
  - eexists [_]. simpl. split; [reflexivity | now rewrite app_nil_r].
  - unfold _refresh_csrf_token.
    set (url := refresh_url _).
    destruct (http_get w _ url) as [page |]; simpl.
    + destruct (meta_token _); simpl.
      * eexists [_; _]. simpl. split; [now rewrite <- app_assoc |].
        rewrite app_nil_r, length_app, Nat.add_comm. reflexivity.
      * destruct (input_token _); simpl.
        -- eexists [_; _]. simpl. split; [now rewrite <- app_assoc |].
           rewrite app_nil_r, length_app, Nat.add_comm. reflexivity.
        -- eexists [_]. simpl. split; reflexivity.
    + eexists [_]. simpl. split; reflexivity.
Qed.

(** The loop ends: every round that goes on has added a post. *)
Lemma posts_loop_total (fuel : nat) :
  forall channel max_posts all_posts last_post_id offset has_more s,
    (Z.to_nat (max_posts - Z.of_nat (List.length all_posts)) <= fuel)%nat ->
    exists acc s',
      posts_loop BeautifulSoup w fuel channel max_posts all_posts last_post_id offset has_more s
      = Some (acc, s').
Proof.
  induction fuel as [| fuel IH]; intros channel max_posts all_posts last_post_id
                                        offset has_more s Hfuel.
  - simpl.
    destruct (Z.of_nat (List.length all_posts) <? max_posts) eqn:C;
      [apply Z.ltb_lt in C; lia |].
    simpl. eauto.
  - cbn [posts_loop].
    destruct (_ && _ && _) eqn:C; [| eauto].
    apply andb_prop in C; destruct C as [C _].
    apply andb_prop in C; destruct C as [C _]. apply Z.ltb_lt in C.
    destruct (_make_more_posts_request BeautifulSoup w _ _ _ _) as [reply s1].
    destruct (ok_envelope reply) as [e |]; [| eauto].
    destruct (negb (truthy _)); [eauto |].
    destruct (_parse_posts_html BeautifulSoup _) as [| p new_posts] eqn:N; cbn [is_nil]; [eauto |].
    destruct (negb (id_truthy _)); [eauto |].
    apply IH. rewrite length_app. cbn [List.length]. lia.
Qed.

(** The list that leaves the loop is the list that entered it, followed
    by the batches of the replies in the order of the requests. *)
Lemma posts_loop_fetched (fuel : nat) :
  forall channel max_posts all_posts last_post_id offset has_more s acc s',
    posts_loop BeautifulSoup w fuel channel max_posts all_posts last_post_id offset has_more s
    = Some (acc, s') ->
    exists reqs,
      sent s' = (sent s ++ reqs)%list
      /\ acc = (all_posts ++ batches BeautifulSoup w (List.length (sent s)) reqs)%list.
Proof.
  induction fuel as [| fuel IH]; intros channel max_posts all_posts last_post_id
                                        offset has_more s acc s' H.
  - simpl in H. destruct (_ && _ && _); [discriminate |].
    inversion H; subst. exists []. now rewrite !app_nil_r.
  - cbn [posts_loop] in H.
    destruct (_ && _ && _);
      [| inversion H; subst; exists []; now rewrite !app_nil_r].
    destruct (make_more_sent channel last_post_id offset s) as [reqs [Hs Hb]].
    destruct (_make_more_posts_request BeautifulSoup w _ _ _ _) as [reply s1]. cbn [fst snd] in Hs, Hb.
    unfold batch_of in Hb.
    destruct (ok_envelope reply) as [e |].
    + destruct (truthy (default "" (html e))); cbn [negb] in H.
      * destruct (_parse_posts_html BeautifulSoup _) as [| p new_posts] eqn:N; cbn [is_nil] in H.
        -- inversion H; subst. exists reqs. now rewrite Hb, app_nil_r.
        -- destruct (negb (id_truthy _)).
           ++ inversion H; subst. exists reqs. now rewrite Hb.
           ++ apply IH in H. destruct H as [rest [Hs' Hacc]].
              exists (reqs ++ rest)%list. split.
              ** now rewrite Hs', Hs, app_assoc.
              ** rewrite Hacc, batches_app, Hb, Hs, length_app, <- app_assoc.
                 reflexivity.
      * inversion H; subst. exists reqs. now rewrite Hb, app_nil_r.
    + inversion H; subst. exists reqs. now rewrite Hb, app_nil_r.
Qed.

Lemma slice_to_firstn {A} (l : list A) (n : Z) :
  0 <= n -> slice_to l n = firstn (Z.to_nat n) l.
Proof.
  intros H. unfold slice_to.
  destruct (0 <=? n) eqn:C; [reflexivity | apply Z.leb_gt in C; lia].
Qed.

Lemma posts_loop_exit (fuel : nat) (channel : string) (max_posts : Z)
      (all_posts : list post_data) (last_post_id : option Z) (offset : Z)
      (has_more : bool) (s : session) :
  (Z.of_nat (List.length all_posts) <? max_posts) && has_more
  && id_truthy last_post_id = false ->
  posts_loop BeautifulSoup w fuel channel max_posts all_posts last_post_id
             offset has_more s
  = Some (all_posts, s).
Proof.
  intros C. destruct fuel; cbn [posts_loop]; now rewrite C.
Qed.

(** While the loop test holds, the next thing sent is the load-more
    request for the current cursor and offset. *)
Lemma posts_loop_sent_first (fuel : nat) (channel : string) (max_posts : Z)
      (all_posts : list post_data) (last_post_id : option Z) (offset : Z)
      (has_more : bool) (s : session) (acc : list post_data) (s' : session) :
  has_token s = true ->
  (Z.of_nat (List.length all_posts) <? max_posts) && has_more
  && id_truthy last_post_id = true ->
  posts_loop BeautifulSoup w fuel channel max_posts all_posts last_post_id
             offset has_more s
  = Some (acc, s') ->
  exists rest,
    sent s' = (sent s ++ POST_posts (csrf_token_form s) channel last_post_id offset
                         :: rest)%list.
Proof.
  intros T C H. destruct fuel; cbn [posts_loop] in H; rewrite C in H;
    [discriminate |].
  rewrite (make_more_with_token _ _ _ _ T) in H. cbv beta iota zeta in H.
  set (r := POST_posts _ _ _ _) in *.
  assert (Hgo : forall fuel' a l o m,
             posts_loop BeautifulSoup w fuel' channel max_posts a l o m (record r s)
             = Some (acc, s') ->
             exists rest, sent s' = (sent s ++ r :: rest)%list).
  { intros fuel' a l o m G. apply posts_loop_fetched in G.
    destruct G as [reqs [G _]]. exists reqs.
    rewrite G. simpl. now rewrite <- app_assoc. }
  destruct (ok_envelope _) as [e |];
    [| inversion H; subst; now exists []].
  destruct (negb (truthy _)); [inversion H; subst; now exists [] |].
  destruct (is_nil _); [inversion H; subst; now exists [] |].
  destruct (negb (id_truthy _)); [inversion H; subst; now exists [] |].
  eapply Hgo; eassumption.
Qed.

(** C9. When the last post of the initial batch has no id,
    [get_channel_posts] returns the initial batch cut to [max_posts]
    and has sent nothing but the request for the landing page, whatever
    [max_posts] is. *)
Theorem posts_stop_without_initial_cursor
  (fuel : nat) (channel : string) (max_posts : Z) (s : session) (page : string)
  (Hchannel : truthy channel = true)
  (Hget : http_get w (List.length (sent s)) (channel_url channel) = Some page)
  (Hpage : truthy page = true)
  (Hposts : _parse_posts_html BeautifulSoup page <> [])
  (Hlast : last_id (_parse_posts_html BeautifulSoup page) = None) :
  get_channel_posts BeautifulSoup w fuel channel max_posts s
  = Some (Found (slice_to (_parse_posts_html BeautifulSoup page) max_posts),
          record (GET (channel_url channel)) s)
  /\ (0 <= max_posts ->
      slice_to (_parse_posts_html BeautifulSoup page) max_posts
      = firstn (Z.to_nat max_posts) (_parse_posts_html BeautifulSoup page)).
Proof.
  split; [| apply slice_to_firstn].
  unfold get_channel_posts, _get_initial_posts_html.
  rewrite Hchannel, Hget, Hpage. cbn [negb].
  destruct (_parse_posts_html BeautifulSoup page) as [| p l] eqn:P;
    [congruence |].
  cbn [is_nil]. rewrite posts_loop_exit; [reflexivity |].
  rewrite Hlast. cbn [id_truthy]. apply andb_false_r.
Qed.


(** C6. After a load-more reply with status ok, a payload and at least
    one post in it, the cursor is the envelope's [nextPage] when it has
    one and the id of the last post of this batch otherwise.  While the
    maximum is not reached, the envelope announces more and the cursor
    is usable, the next request is sent and carries this cursor;
    otherwise this request was the last. *)
Theorem next_cursor_after_load_more
  (fuel : nat) (channel : string) (max_posts : Z) (all_posts : list post_data)
  (last_post_id : option Z) (offset : Z) (s : session) (e : envelope)
  (page : string)
  (Hfuel : (Z.to_nat max_posts <= fuel)%nat)
  (Htoken : has_token s = true)
  (Hroom : Z.of_nat (List.length all_posts) < max_posts)
  (Hlast : id_truthy last_post_id = true)
  (Hreply : http_post w (List.length (sent s))
                      (POST_posts (csrf_token_form s) channel last_post_id offset)
            = Some e)
  (Hok : status e = Some "ok")
  (Hhtml : html e = Some page)
  (Hpage : truthy page = true)
  (Hnew : _parse_posts_html BeautifulSoup page <> []) :
  let new_posts := _parse_posts_html BeautifulSoup page in
  let cursor :=
    match nextPage e with
    | Some next_page_id => Some next_page_id
    | None => last_id new_posts
    end in
  let offset' := default (offset + Z.of_nat (List.length new_posts)) (nextOffset e) in
  let this := POST_posts (csrf_token_form s) channel last_post_id offset in
  let next := POST_posts (csrf_token_form s) channel cursor offset' in
  exists acc s',
    posts_loop BeautifulSoup w fuel channel max_posts all_posts last_post_id
               offset true s
    = Some (acc, s')
    /\ if (Z.of_nat (List.length (all_posts ++ new_posts)) <? max_posts)
          && default false (hasMore e) && id_truthy cursor
       then exists rest, sent s' = (sent s ++ this :: next :: rest)%list
       else sent s' = (sent s ++ [this])%list
            /\ acc = (all_posts ++ new_posts)%list.
Proof.
  intros new_posts cursor offset' this next.
  assert (Hnil : is_nil new_posts = false /\ (1 <= List.length new_posts)%nat).
  { subst new_posts.
    destruct (_parse_posts_html BeautifulSoup page); [congruence |].
    simpl. split; [reflexivity | lia]. }
  destruct Hnil as [Hnil Hlen].
  destruct fuel as [| fuel]; [lia |].
  cbn [posts_loop].
  assert (C : (Z.of_nat (List.length all_posts) <? max_posts) && true
              && id_truthy last_post_id = true).
  { rewrite Hlast. apply Z.ltb_lt in Hroom. now rewrite Hroom. }
  rewrite C, (make_more_with_token _ _ _ _ Htoken). cbv beta iota zeta.
  rewrite Hreply. unfold ok_envelope. rewrite Hok.
  replace ("ok" =? "ok")%string with true by reflexivity.
  rewrite Hhtml. cbn [default]. rewrite Hpage. cbn [negb].
  fold new_posts this. rewrite Hnil. fold cursor offset'.
  set (s1 := record this s).
  destruct (id_truthy cursor) eqn:I; cbn [negb].
  - destruct ((Z.of_nat (List.length (all_posts ++ new_posts)) <? max_posts)
              && default false (hasMore e)) eqn:C2; cbn [andb].
    + destruct (posts_loop_total fuel channel max_posts (all_posts ++ new_posts)
                                 cursor offset' (default false (hasMore e)) s1)
        as [acc [s' L]].
      { rewrite length_app. lia. }
      exists acc, s'. split; [exact L |].
      apply posts_loop_sent_first in L.
      * destruct L as [rest L]. exists rest. rewrite L. subst s1. simpl.
        now rewrite <- app_assoc.
      * exact Htoken.
      * now rewrite C2, I.
    + exists (all_posts ++ new_posts)%list, s1.
      split; [| split; reflexivity].
      apply posts_loop_exit. now rewrite C2.
  - exists (all_posts ++ new_posts)%list, s1.
    rewrite andb_false_r. split; [reflexivity | split; reflexivity].
Qed.

End Feed.

Lemma posts_stop_without_initial_cursor_witness :
  get_channel_posts sample_soup headless_peer 0 "@rian_ru" 45 fresh
  = Some (Found (slice_to (_parse_posts_html sample_soup "headless feed") 45),
          record (GET (channel_url "@rian_ru")) fresh)
  /\ map post_id (_parse_posts_html sample_soup "headless feed") = [Some 9; None].
Proof.
  split; [| reflexivity].
  apply (posts_stop_without_initial_cursor
           sample_soup headless_peer 0 "@rian_ru" 45 fresh "headless feed").
  - reflexivity.
  - reflexivity.
  - reflexivity.
  - intros H. vm_compute in H. discriminate H.
  - reflexivity.
Defined.


(** The feed of three batches of twenty posts, asked for 45 posts: the
    first 45 in the order of the feed, after two load-more requests. *)
Example feed_of_three_batches :
  exists posts s',
    get_channel_posts sample_soup feed_peer 45 "@rian_ru" 45 fresh
    = Some (Found posts, s')
    /\ List.length posts = 45%nat
    /\ map post_id posts = map Some (ids_down 45 160)
    /\ sent s' = [GET SEARCH_URL; GET (channel_url "@rian_ru");
                  POST_posts (Some "tok-1") "@rian_ru" (Some 141) 20;
                  POST_posts (Some "tok-1") "@rian_ru" (Some 121) 40].
Proof.
  do 2 eexists. split; [vm_compute; reflexivity |].
  repeat split; vm_compute; reflexivity.
Qed.

Lemma next_cursor_after_load_more_witness :
  let s := record (GET (channel_url "@rian_ru")) fresh in
  last_id (_parse_posts_html sample_soup "feed 140") = Some 121
  /\ exists acc s' rest,
       posts_loop sample_soup feed_peer 45 "@rian_ru" 45
                  (_parse_posts_html sample_soup "feed 160") (Some 141) 20 true s
       = Some (acc, s')
       /\ sent s' = (sent s ++ POST_posts (Some "tok-1") "@rian_ru" (Some 141) 20
                            :: POST_posts (Some "tok-1") "@rian_ru" (Some 121) 40
                            :: rest)%list.
Proof.
  intros s. split; [vm_compute; reflexivity |].
  destruct (next_cursor_after_load_more
              sample_soup feed_peer 45 "@rian_ru" 45
              (_parse_posts_html sample_soup "feed 160") (Some 141) 20 s
              (ok_reply "feed 140" true) "feed 140")
    as [acc [s' [L Hlog]]].
  - apply Nat.le_refl.
  - reflexivity.
  - vm_compute. reflexivity.
  - reflexivity.
  - reflexivity.
  - reflexivity.
  - reflexivity.
  - reflexivity.
  - intros H. vm_compute in H. discriminate H.
  - exists acc, s'.
    assert (C : (Z.of_nat (List.length (_parse_posts_html sample_soup "feed 160"
                                        ++ _parse_posts_html sample_soup "feed 140"))
                 <? 45)
                && default false (hasMore (ok_reply "feed 140" true))
                && id_truthy (last_id (_parse_posts_html sample_soup "feed 140"))
                = true) by (vm_compute; reflexivity).
    cbn [nextPage ok_reply] in Hlog. rewrite C in Hlog.
    destruct Hlog as [rest Hlog]. exists rest. split; [exact L |].
    rewrite Hlog. reflexivity.
Defined.

(** ** Channel search, page after page *)

Section Search.

Variable BeautifulSoup : string -> node.
Variable w : world.

Lemma make_search_with_token (query : string) (page offset : Z) (sort : string)
      (s : session) :
  has_token s = true ->
  _make_search_request BeautifulSoup w query page offset sort s
  = let r := POST_search (csrf_token_form s) query sort page offset in
    (http_post w (List.length (sent s)) r, record r s).
Proof.
  intros H. unfold _make_search_request, ensure_token. now rewrite H.
Qed.

Lemma make_search_sent (query : string) (page offset : Z) (sort : string)
      (s : session) :
  exists reqs,
    sent (snd (_make_search_request BeautifulSoup w query page offset sort s))
    = (sent s ++ reqs)%list.
Proof.
  unfold _make_search_request, ensure_token.
  destruct (has_token s); [now eexists [_] |].
  destruct (_refresh_csrf_token BeautifulSoup w None s) as [ok s1] eqn:R.
  assert (Hs1 : sent s1 = (sent s ++ [GET SEARCH_URL])%list).
  { unfold _refresh_csrf_token in R. cbn [refresh_url] in R.
    destruct (http_get w _ _); [destruct (meta_token _); [| destruct (input_token _)] |];
      inversion R; reflexivity. }
  destruct ok; cbn [snd].
  - eexists [_; _]. simpl. now rewrite Hs1, <- app_assoc.
  - eexists. exact Hs1.
Qed.

(** The record of requests only grows during a search. *)
Lemma search_loop_sent (fuel : nat) :
  forall query max_pages sort all_channels page offset has_more s o s',
    search_loop BeautifulSoup w fuel query max_pages sort all_channels page offset
                has_more s
    = Some (o, s') ->
    exists reqs, sent s' = (sent s ++ reqs)%list.
Proof.
  induction fuel as [| fuel IH]; intros query max_pages sort all_channels page
                                        offset has_more s o s' H.
  - simpl in H. destruct (_ && _); [discriminate |].
    inversion H; subst. exists []. now rewrite app_nil_r.
  - cbn [search_loop] in H.
    destruct (_ && _);
      [| inversion H; subst; exists []; now rewrite app_nil_r].
    destruct (make_search_sent query page offset sort s) as [reqs Hs].
    destruct (_make_search_request _ _ _ _ _ _ _) as [reply s1]. cbn [snd] in Hs.
    destruct (ok_envelope reply) as [e |].
    + destruct (negb (truthy _)); [inversion H; subst; now exists reqs |].
      destruct (is_nil _ && _); [inversion H; subst; now exists reqs |].
      apply IH in H. destruct H as [rest H]. exists (reqs ++ rest)%list.
      now rewrite H, Hs, app_assoc.
    + destruct (page =? 0); inversion H; subst; now exists reqs.
Qed.

(** When the first request fails, the search fails. *)
Lemma search_first_page_failure (fuel : nat) (query : string) (max_pages : Z)
      (sort : string) (s : session) :
  0 < max_pages ->
  ok_envelope (fst (_make_search_request BeautifulSoup w query 0 0 sort s)) = None ->
  search_channels BeautifulSoup w (S fuel) query max_pages sort s
  = Some (Failure, snd (_make_search_request BeautifulSoup w query 0 0 sort s)).
Proof.
  intros Hmax H. unfold search_channels. cbn [search_loop].
  apply Z.ltb_lt in Hmax. rewrite Hmax. cbn [andb].
  destruct (_make_search_request _ _ _ _ _ _ _) as [reply s1]. cbn [fst snd] in *.
  now rewrite H.
Qed.

(** When the first page arrives and lists no channel, the search
    returns the empty list. *)
Lemma search_first_page_empty (fuel : nat) (query : string) (max_pages : Z)
      (sort : string) (s : session) (e : envelope) :
  0 < max_pages ->
  ok_envelope (fst (_make_search_request BeautifulSoup w query 0 0 sort s)) = Some e ->
  truthy (default "" (html e)) = false
  \/ _parse_search_html BeautifulSoup (default "" (html e)) = [] ->
  search_channels BeautifulSoup w (S fuel) query max_pages sort s
  = Some (Found [], snd (_make_search_request BeautifulSoup w query 0 0 sort s)).
Proof.
  intros Hmax H Hzero. unfold search_channels. cbn [search_loop].
  apply Z.ltb_lt in Hmax. rewrite Hmax. cbn [andb].
  destruct (_make_search_request _ _ _ _ _ _ _) as [reply s1]. cbn [fst snd] in *.
  rewrite H.
  destruct (truthy (default "" (html e))) eqn:T; cbn [negb]; [| reflexivity].
  destruct Hzero as [Hz | Hz]; [discriminate |]. now rewrite Hz.
Qed.

(** On a page whose index is positive the search never fails, as long
    as the peer names only positive pages as next pages. *)
Lemma search_no_failure_later (fuel : nat) :
  (forall n r e, http_post w n r = Some e ->
                 forall p, nextPage e = Some p -> 0 < p) ->
  forall query max_pages sort all_channels page offset has_more s o s',
    0 < page ->
    search_loop BeautifulSoup w fuel query max_pages sort all_channels page offset
                has_more s
    = Some (o, s') ->
    o <> Failure.
Proof.
  intros Hpeer.
  induction fuel as [| fuel IH]; intros query max_pages sort all_channels page
                                        offset has_more s o s' Hpage H.
  - simpl in H. destruct (_ && _); [discriminate |].
    inversion H; subst; discriminate.
  - cbn [search_loop] in H.
    destruct (_ && _); [| inversion H; subst; discriminate].
    assert (Hreply : forall e,
               ok_envelope (fst (_make_search_request BeautifulSoup w query page
                                                      offset sort s)) = Some e ->
               forall p, nextPage e = Some p -> 0 < p).
    { intros e He. unfold _make_search_request in He.
      destruct (ensure_token _ _ _ _) as [[|] s1]; cbn [fst] in He.
      - unfold ok_envelope in He.
        destruct (http_post w _ _) as [e' |] eqn:P; [| discriminate].
        destruct (status e'); [| discriminate].
        destruct (_ =? _)%string; [| discriminate].
        inversion He; subst. eapply Hpeer; eassumption.
      - discriminate. }
    destruct (_make_search_request _ _ _ _ _ _ _) as [reply s1]. cbn [fst] in Hreply.
    destruct (ok_envelope reply) as [e |].
    + destruct (negb (truthy _)); [inversion H; subst; discriminate |].
      destruct (is_nil _ && _); [inversion H; subst; discriminate |].
      eapply IH; [| eassumption].
      destruct (nextPage e) as [p |] eqn:N; cbn [default]; [| lia].
      eapply Hreply; [reflexivity | eassumption].
    + replace (page =? 0) with false in H by (symmetry; apply Z.eqb_neq; lia).
      inversion H; subst; discriminate.
Qed.

(** With such a peer, the search fails exactly when its first request
    fails. *)
Lemma search_failure_iff_first_page (fuel : nat) (query : string) (max_pages : Z)
      (sort : string) (s s' : session) :
  (forall n r e, http_post w n r = Some e ->
                 forall p, nextPage e = Some p -> 0 < p) ->
  0 < max_pages ->
  search_channels BeautifulSoup w (S fuel) query max_pages sort s = Some (Failure, s')
  <-> ok_envelope (fst (_make_search_request BeautifulSoup w query 0 0 sort s)) = None
      /\ s' = snd (_make_search_request BeautifulSoup w query 0 0 sort s).
Proof.
  intros Hpeer Hmax. split.
  - unfold search_channels. cbn [search_loop].
    pose proof Hmax as Hlt. apply Z.ltb_lt in Hlt. rewrite Hlt. cbn [andb].
    assert (Hreply : forall e,
               ok_envelope (fst (_make_search_request BeautifulSoup w query 0 0
                                                      sort s)) = Some e ->
               forall p, nextPage e = Some p -> 0 < p).
    { intros e He. unfold _make_search_request in He.
      destruct (ensure_token _ _ _ _) as [[|] s1]; cbn [fst] in He.
      - unfold ok_envelope in He.
        destruct (http_post w _ _) as [e' |] eqn:P; [| discriminate].
        destruct (status e'); [| discriminate].
        destruct (_ =? _)%string; [| discriminate].
        inversion He; subst. eapply Hpeer; eassumption.
      - discriminate. }
    destruct (_make_search_request _ _ _ _ _ _ _) as [reply s1].
    cbn [fst snd] in *.
    destruct (ok_envelope reply) as [e |].
    + destruct (negb (truthy _)); [discriminate |].
      destruct (is_nil _ && _); [discriminate |].
      intros H. exfalso.
      eapply (search_no_failure_later fuel Hpeer); [| exact H | reflexivity].
      destruct (nextPage e) as [p |] eqn:N; cbn [default]; [| lia].
      eapply Hreply; [reflexivity | eassumption].
    + cbn [Z.eqb]. intros H; inversion H; auto.
  - intros [H ->]. now apply search_first_page_failure.
Qed.

(** C3, as the code has it.  A page after the first (page index other
    than 0) that arrives with status ok and a payload from which no
    channel is parsed does not end the search: nothing is appended and
    the loop goes on with the envelope's continuation data, so that the
    next request follows whenever the envelope announces more and the
    next page index is below [max_pages]. *)
Theorem empty_later_page_continues
  (fuel : nat) (query : string) (max_pages : Z) (sort : string)
  (all_channels : list channel_info) (page offset : Z) (s : session)
  (e : envelope) (payload : string)
  (Htoken : has_token s = true)
  (Hbudget : page < max_pages)
  (Hlater : page <> 0)
  (Hreply : http_post w (List.length (sent s))
                      (POST_search (csrf_token_form s) query sort page offset)
            = Some e)
  (Hok : status e = Some "ok")
  (Hhtml : html e = Some payload)
  (Hpayload : truthy payload = true)
  (Hzero : _parse_search_html BeautifulSoup payload = []) :
  let page' := default (page + 1) (nextPage e) in
  let offset' := default (offset + 30) (nextOffset e) in
  let this := POST_search (csrf_token_form s) query sort page offset in
  let next := POST_search (csrf_token_form s) query sort page' offset' in
  search_loop BeautifulSoup w (S fuel) query max_pages sort all_channels
              page offset true s
  = search_loop BeautifulSoup w fuel query max_pages sort all_channels
                page' offset' (default false (hasMore e)) (record this s)
  /\ (hasMore e = Some true -> page' < max_pages ->
      forall o s',
        search_loop BeautifulSoup w (S fuel) query max_pages sort all_channels
                    page offset true s
        = Some (o, s') ->
        exists rest, sent s' = (sent s ++ this :: next :: rest)%list).
Proof.
  intros page' offset' this next.
  assert (Step :
            search_loop BeautifulSoup w (S fuel) query max_pages sort all_channels
                        page offset true s
            = search_loop BeautifulSoup w fuel query max_pages sort all_channels
                          page' offset' (default false (hasMore e)) (record this s)).
  { cbn [search_loop].
    apply Z.ltb_lt in Hbudget. rewrite Hbudget. cbn [andb].
    rewrite (make_search_with_token _ _ _ _ _ Htoken). cbv beta iota zeta.
    rewrite Hreply. unfold ok_envelope. rewrite Hok.
    replace ("ok" =? "ok")%string with true by reflexivity.
    rewrite Hhtml. cbn [default]. rewrite Hpayload, Hzero. cbn [negb is_nil].
    replace (page =? 0) with false by (symmetry; now apply Z.eqb_neq).
    cbn [andb]. now rewrite app_nil_r. }
  split; [exact Step |].
  intros Hmore Hnext o s' H. rewrite Step, Hmore in H. cbn [default] in H.
  destruct fuel as [| fuel]; cbn [search_loop] in H;
    apply Z.ltb_lt in Hnext; rewrite Hnext in H; cbn [andb] in H;
    [discriminate |].
  rewrite (make_search_with_token query page' offset' sort (record this s) Htoken) in H.
  cbv beta iota zeta in H. fold next in H.
  assert (Hgo : forall p a pg off m,
             search_loop BeautifulSoup w p query max_pages sort a pg off m
                         (record next (record this s))
             = Some (o, s') ->
             exists rest, sent s' = (sent s ++ this :: next :: rest)%list).
  { intros p a pg off m G. apply search_loop_sent in G. destruct G as [reqs G].
    exists reqs. rewrite G. simpl. now rewrite <- !app_assoc. }
  assert (Hhere : sent (record next (record this s))
                  = (sent s ++ this :: next :: [])%list)
    by (simpl; now rewrite <- app_assoc).
  destruct (ok_envelope _) as [e' |].
  - destruct (negb (truthy _)); [inversion H; subst; now exists [] |].
    destruct (is_nil _ && _); [inversion H; subst; now exists [] |].
    eapply Hgo; eassumption.
  - destruct (page' =? 0); inversion H; subst; now exists [].
Qed.

End Search.

Lemma empty_later_page_continues_witness :
  let s := record (POST_search (Some "tok-1") "news" "participants" 0 0) fresh in
  _parse_search_html sample_soup "no results" = []
  /\ search_loop sample_soup gap_peer 2 "news" 3 "participants" [good_record] 1 30
                 true s
     = search_loop sample_soup gap_peer 1 "news" 3 "participants" [good_record] 2 60
                   true
                   (record (POST_search (Some "tok-1") "news" "participants" 1 30) s).
Proof.
  intros s. split; [reflexivity |].
  apply (empty_later_page_continues
           sample_soup gap_peer 1 "news" 3 "participants" [good_record] 1 30 s
           (ok_reply "no results" true) "no results").
  - reflexivity.
  - lia.
  - discriminate.
  - reflexivity.
  - reflexivity.
  - reflexivity.
  - reflexivity.
  - reflexivity.
Defined.

(** C3 as the claim words it fails: the second page of this search
    arrives with status ok and lists no channel, and the third page is
    requested all the same. *)
Lemma empty_second_page_does_not_stop :
  _parse_search_html sample_soup "no results" = []
  /\ http_post gap_peer 2 (POST_search (Some "tok-1") "news" "participants" 1 30)
     = Some (ok_reply "no results" true)
  /\ exists s',
       search_channels sample_soup gap_peer 3 "news" 3 "participants" fresh
       = Some (Found [good_record; good_record], s')
       /\ sent s' = [GET SEARCH_URL;
                     POST_search (Some "tok-1") "news" "participants" 0 0;
                     POST_search (Some "tok-1") "news" "participants" 1 30;
                     POST_search (Some "tok-1") "news" "participants" 2 60].
Proof.
  split; [reflexivity |]. split; [reflexivity |].
  eexists. split; vm_compute; reflexivity.
Qed.

(** C2.  The first request of this search succeeds and its page lists a
    channel, but its envelope names page 0 as the next page; the second
    request fails, and [search_channels] returns the failure outcome
    instead of the channel it has collected. *)
Theorem search_fails_after_page_reset :
  ok_envelope (fst (_make_search_request sample_soup reset_peer "news" 0 0
                                         "participants" fresh))
  = Some {| status := Some "ok"; html := Some "results"; hasMore := Some true;
            nextPage := Some 0; nextOffset := Some 30 |}
  /\ _parse_search_html sample_soup "results" = [good_record]
  /\ exists s',
       search_channels sample_soup reset_peer 2 "news" 1 "participants" fresh
       = Some (Failure, s')
       /\ sent s' = [GET SEARCH_URL;
                     POST_search (Some "tok-1") "news" "participants" 0 0;
                     POST_search (Some "tok-1") "news" "participants" 0 30].
Proof.
  split; [reflexivity |]. split; [vm_compute; reflexivity |].
  eexists. split; vm_compute; reflexivity.
Qed.

(** * Further properties of the code *)

(** ** The number normalizer on plain and on blank text *)

Lemma digit_char (c : ascii) :
  is_digit c = true ->
  is_upper c = false /\ is_space c = false /\ is_cspace c = false
  /\ Ascii.eqb c "," = false /\ Ascii.eqb c " " = false
  /\ Ascii.eqb c "m" = false /\ Ascii.eqb c "k" = false
  /\ Ascii.eqb c "_" = false
  /\ (forall s, read_sign (String c s) = (false, String c s))
  /\ 0 <= digit_val c.
Proof.
  destruct c as [[] [] [] [] [] [] [] []]; vm_compute; intros H;
    try discriminate H; repeat split; intros; discriminate.
Qed.

Lemma lower_char_space (c : ascii) : is_space (lower_char c) = is_space c.
Proof.
  destruct c as [[] [] [] [] [] [] [] []]; reflexivity.
Qed.

Lemma lower_char_idem (c : ascii) : lower_char (lower_char c) = lower_char c.
Proof.
  destruct c as [[] [] [] [] [] [] [] []]; reflexivity.
Qed.

Lemma lower_idem (s : string) : lower (lower s) = lower s.
Proof.
  induction s as [| c s IH]; simpl; [reflexivity |].
  now rewrite lower_char_idem, IH.
Qed.

Lemma lower_digits (s : string) : all_chars is_digit s = true -> lower s = s.
Proof.
  induction s as [| c s IH]; simpl; [reflexivity |].
  intros H. apply andb_prop in H. destruct H as [Hc Hs].
  unfold lower_char. destruct (digit_char c Hc) as [-> _]. now rewrite IH.
Qed.

Lemma rstrip_by_none (p : ascii -> bool) (s : string) :
  all_chars (fun c => negb (p c)) s = true -> rstrip_by p s = s.
Proof.
  induction s as [| c s IH]; simpl; [reflexivity |].
  intros H. apply andb_prop in H. destruct H as [Hc Hs].
  rewrite (IH Hs). apply negb_true_iff in Hc. rewrite Hc.
  now destruct s.
Qed.

Lemma lstrip_by_none (p : ascii -> bool) (s : string) :
  all_chars (fun c => negb (p c)) s = true -> lstrip_by p s = s.
Proof.
  destruct s as [| c s]; simpl; [reflexivity |].
  intros H. apply andb_prop in H. destruct H as [Hc _].
  apply negb_true_iff in Hc. now rewrite Hc.
Qed.

Lemma replace_none (c : ascii) (by_ s : string) :
  all_chars (fun d => negb (Ascii.eqb d c)) s = true -> replace c by_ s = s.
Proof.
  induction s as [| d s IH]; simpl; [reflexivity |].
  intros H. apply andb_prop in H. destruct H as [Hd Hs].
  apply negb_true_iff in Hd. now rewrite Hd, IH.
Qed.

Lemma contains_char_none (c : ascii) (s : string) :
  all_chars (fun d => negb (Ascii.eqb d c)) s = true -> contains_char c s = false.
Proof.
  induction s as [| d s IH]; simpl; [reflexivity |].
  intros H. apply andb_prop in H. destruct H as [Hd Hs].
  apply negb_true_iff in Hd. now rewrite Hd, IH.
Qed.

Lemma all_chars_weaken (p q : ascii -> bool) (s : string) :
  (forall c, p c = true -> q c = true) ->
  all_chars p s = true -> all_chars q s = true.
Proof.
  intros Hpq. induction s as [| c s IH]; simpl; [reflexivity |].
  intros H. apply andb_prop in H. destruct H as [Hc Hs].
  now rewrite (Hpq c Hc), IH.
Qed.

Lemma drop_underscores_digits (s : string) (prev : ascii) :
  all_chars is_digit s = true ->
  Ascii.eqb prev "_" = false ->
  drop_underscores prev s = Some s.
Proof.
  revert prev. induction s as [| c s IH]; simpl; intros prev H Hprev.
  - now rewrite Hprev.
  - apply andb_prop in H. destruct H as [Hc Hs].
    destruct (digit_char c Hc) as (_ & _ & _ & _ & _ & _ & _ & Hu & _).
    rewrite Hu, Hprev. cbn [andb]. now rewrite (IH c Hs Hu).
Qed.

Lemma read_digits_all (s : string) (acc n : Z) :
  all_chars is_digit s = true ->
  read_digits acc n s
  = (decimal_from acc s, n + Z.of_nat (String.length s), EmptyString).
Proof.
  revert acc n. induction s as [| c s IH]; simpl String.length; intros acc n H.
  - simpl. now rewrite Z.add_0_r.
  - simpl in H. apply andb_prop in H. destruct H as [Hc Hs].
    cbn [read_digits]. rewrite Hc, (IH _ _ Hs). cbn [decimal_from].
    unfold digit_val, code.
    replace (n + 1 + Z.of_nat (String.length s))
      with (n + Z.of_nat (S (String.length s))) by lia.
    reflexivity.
Qed.

Lemma decimal_from_nonneg (s : string) (acc : Z) :
  all_chars is_digit s = true -> 0 <= acc -> 0 <= decimal_from acc s.
Proof.
  revert acc.
  induction s as [| c s IH]; cbn [decimal_from all_chars]; intros acc H Hacc;
    [exact Hacc |].
  apply andb_prop in H. destruct H as [Hc Hs]. apply IH; [exact Hs |].
  destruct (digit_char c Hc) as (_ & _ & _ & _ & _ & _ & _ & _ & _ & Hv).
  unfold digit_val, code in Hv. lia.
Qed.

(** [int(s)] on a run of digits: the number it denotes, as long as the
    run is within the cap. *)
Lemma py_int_digits (s : string) :
  all_chars is_digit s = true -> s <> EmptyString ->
  py_int s
  = if Z.of_nat (String.length s) <=? int_max_str_digits
    then Ok (decimal_value s) else Raise ValueError.
Proof.
  intros H Hne. unfold py_int, strip_by.
  assert (Hsp : all_chars (fun c => negb (is_cspace c)) s = true).
  { eapply all_chars_weaken; [| exact H]. intros c Hc.
    destruct (digit_char c Hc) as (_ & _ & -> & _). reflexivity. }
  rewrite (lstrip_by_none _ _ Hsp), (rstrip_by_none _ _ Hsp).
  rewrite (drop_underscores_digits s zero H eq_refl).
  destruct s as [| c s]; [congruence |].
  pose proof H as H'. simpl in H'. apply andb_prop in H'. destruct H' as [Hc _].
  destruct (digit_char c Hc) as (_ & _ & _ & _ & _ & _ & _ & _ & Hsign & _).
  rewrite Hsign, (read_digits_all _ 0 0 H).
  replace (0 <? 0 + Z.of_nat (String.length (String c s))) with true
    by (symmetry; apply Z.ltb_lt; simpl String.length; lia).
  rewrite Z.add_0_l. reflexivity.
Qed.

(** X1. A text made of decimal digits only, and of no more of them
    than [int()] accepts (4300), is read exactly: the result is the
    number the digits denote, with no detour through floating point. *)
Theorem parse_number_plain_digits (text : string)
  (Hdigits : all_chars is_digit text = true)
  (Hnonempty : text <> EmptyString)
  (Hshort : Z.of_nat (String.length text) <= int_max_str_digits) :
  _parse_number text = Ok (Some (decimal_value text)).
Proof.
  unfold _parse_number.
  assert (Hno : forall p, (forall c, is_digit c = true -> p c = false) ->
                          all_chars (fun c => negb (p c)) text = true).
  { intros p Hp. eapply all_chars_weaken; [| exact Hdigits].
    intros c Hc. now rewrite (Hp c Hc). }
  rewrite (lower_digits _ Hdigits). unfold strip, strip_by.
  rewrite (lstrip_by_none is_space), (rstrip_by_none is_space)
    by (apply Hno; intros c Hc; apply (digit_char c Hc)).
  rewrite (replace_none "," "."), (replace_none " " "")
    by (apply Hno; intros c Hc; apply (digit_char c Hc)).
  rewrite (contains_char_none "m"), (contains_char_none "k")
    by (apply Hno; intros c Hc; apply (digit_char c Hc)).
  rewrite (py_int_digits _ Hdigits Hnonempty).
  replace (Z.of_nat (String.length text) <=? int_max_str_digits) with true
    by (symmetry; now apply Z.leb_le).
  cbn [try_except rbind].
  destruct (negb (truthy text) || (text =? "n/a")%string || (text =? "0")%string)
    eqn:Z0; [| reflexivity].
  apply orb_prop in Z0. destruct Z0 as [Z0 | Z0];
    [apply orb_prop in Z0; destruct Z0 as [Z0 | Z0] |].
  - destruct text; [congruence | discriminate Z0].
  - apply String.eqb_eq in Z0. subst text. discriminate Hdigits.
  - apply String.eqb_eq in Z0. subst text. reflexivity.
Qed.

Lemma parse_number_plain_digits_witness :
  _parse_number "9007199254740993" = Ok (Some 9007199254740993).
Proof.
  apply (parse_number_plain_digits "9007199254740993").
  - reflexivity.
  - discriminate.
  - vm_compute. discriminate.
Defined.

Lemma lstrip_by_all (p : ascii -> bool) (s : string) :
  all_chars p s = true -> lstrip_by p s = EmptyString.
Proof.
  induction s as [| c s IH]; simpl; [reflexivity |].
  intros H. apply andb_prop in H. destruct H as [-> Hs]. now apply IH.
Qed.

Lemma lower_all_space (s : string) :
  all_chars is_space s = true -> all_chars is_space (lower s) = true.
Proof.
  induction s as [| c s IH]; simpl; [reflexivity |].
  intros H. apply andb_prop in H. destruct H as [Hc Hs].
  now rewrite lower_char_space, Hc, IH.
Qed.

(** X2. A text of whitespace only reads as the number 0, like the empty
    text: a blank statistic is not told apart from a zero. *)
Theorem parse_number_blank (text : string)
  (Hblank : all_chars is_space text = true) :
  _parse_number text = Ok (Some 0).
Proof.
  unfold _parse_number, strip, strip_by.
  now rewrite (lstrip_by_all _ _ (lower_all_space _ Hblank)).
Qed.

Lemma parse_number_blank_witness :
  _parse_number (String "009" (String " " (String "010" ""))) = Ok (Some 0).
Proof.
  apply parse_number_blank. reflexivity.
Defined.

Lemma lower_lstrip (s : string) :
  lower (lstrip_by is_space s) = lstrip_by is_space (lower s).
Proof.
  induction s as [| c s IH]; simpl; [reflexivity |].
  rewrite lower_char_space. now destruct (is_space c).
Qed.

Lemma lower_rstrip (s : string) :
  lower (rstrip_by is_space s) = rstrip_by is_space (lower s).
Proof.
  induction s as [| c s IH]; simpl; [reflexivity |].
  rewrite <- IH, lower_char_space.
  destruct (rstrip_by is_space s); simpl; [now destruct (is_space c) | reflexivity].
Qed.

Lemma rstrip_by_idem (p : ascii -> bool) (s : string) :
  rstrip_by p (rstrip_by p s) = rstrip_by p s.
Proof.
  induction s as [| c s IH]; simpl; [reflexivity |].
  destruct (rstrip_by p s) as [| d r] eqn:R.
  - destruct (p c) eqn:Pc; simpl; [reflexivity | now rewrite Pc].
  - cbn [rstrip_by] in *. now rewrite IH.
Qed.

Lemma lstrip_rstrip_lstrip (p : ascii -> bool) (s : string) :
  lstrip_by p (rstrip_by p (lstrip_by p s)) = rstrip_by p (lstrip_by p s).
Proof.
  induction s as [| c s IH]; simpl; [reflexivity |].
  destruct (p c) eqn:Pc; [exact IH |].
  cbn [rstrip_by]. destruct (rstrip_by p s); rewrite ?Pc; simpl; now rewrite Pc.
Qed.

Lemma strip_idem (s : string) : strip (strip s) = strip s.
Proof.
  unfold strip, strip_by. now rewrite lstrip_rstrip_lstrip, rstrip_by_idem.
Qed.

Lemma lower_strip (s : string) : lower (strip s) = strip (lower s).
Proof.
  unfold strip, strip_by. now rewrite lower_rstrip, lower_lstrip.
Qed.

(** X3. Neither the letter case of the text nor whitespace around it
    matters to the number normalizer. *)
Theorem parse_number_ignores_case_and_margin (text : string) :
  _parse_number (lower text) = _parse_number text
  /\ _parse_number (strip text) = _parse_number text.
Proof.
  unfold _parse_number. split.
  - now rewrite lower_idem.
  - now rewrite lower_strip, strip_idem.
Qed.

(** ** What the patterns capture *)

Lemma star_inv {A} (p : ascii -> bool) (s : string) (k : string -> option A)
      (a : A) :
  star p s k = Some a ->
  exists pre rest,
    s = (pre ++ rest)%string /\ all_chars p pre = true /\ k rest = Some a.
Proof.
  revert a. induction s as [| c s IH]; intros a H.
  - exists EmptyString, EmptyString. auto.
  - cbn [star] in H. destruct (p c) eqn:Pc.
    + destruct (star p s k) as [a' |] eqn:S.
      * inversion H; subst a'. destruct (IH a eq_refl) as (pre & rest & E & Hp & Hk).
        exists (String c pre), rest. simpl. rewrite Pc, Hp, E. auto.
      * exists EmptyString, (String c s). auto.
    + exists EmptyString, (String c s). auto.
Qed.

Lemma plus_inv {A} (p : ascii -> bool) (s : string) (k : string -> option A)
      (a : A) :
  plus p s k = Some a ->
  exists pre rest,
    s = (pre ++ rest)%string /\ all_chars p pre = true /\ pre <> EmptyString
    /\ k rest = Some a.
Proof.
  destruct s as [| c s]; cbn [plus]; [discriminate |].
  destruct (p c) eqn:Pc; [| discriminate].
  intros H. apply star_inv in H. destruct H as (pre & rest & E & Hp & Hk).
  exists (String c pre), rest. simpl. rewrite Pc, Hp, E.
  repeat split; trivial. discriminate.
Qed.

Lemma length_append (s1 s2 : string) :
  String.length (s1 ++ s2) = (String.length s1 + String.length s2)%nat.
Proof.
  induction s1 as [| c s1 IH]; simpl; [reflexivity | now rewrite IH].
Qed.

Lemma substring_prefix (pre rest : string) :
  substring 0 (String.length (pre ++ rest) - String.length rest) (pre ++ rest)
  = pre.
Proof.
  replace (String.length (pre ++ rest) - String.length rest)%nat
    with (String.length pre) by (rewrite length_append; lia).
  induction pre as [| c pre IH]; simpl; [now destruct rest | now rewrite IH].
Qed.

Lemma search_inv (r : regex) (s : string) (m : option string) :
  search r s = Some m -> exists t, match_at r t = Some m.
Proof.
  induction s as [| c s IH]; cbn [search].
  - destruct (match_at r EmptyString) eqn:M; [| discriminate].
    intros H; inversion H; subst. eauto.
  - destruct (match_at r (String c s)) eqn:M.
    + intros H; inversion H; subst. eauto.
    + exact IH.
Qed.

(** What [post-(\d+)] captures is a run of digits, not empty. *)
Lemma post_id_capture (s : string) (m : option string) :
  search post_id_re s = Some m ->
  exists d, m = Some d /\ all_chars is_digit d = true /\ d <> EmptyString.
Proof.
  intros H. apply search_inv in H. destruct H as [t H].
  unfold match_at, post_id_re in H. cbn [run] in H.
  destruct (drop_prefix "post-" t) as [t1 |]; [| discriminate].
  apply plus_inv in H. destruct H as (pre & rest & E & Hp & Hne & Hk).
  exists pre. subst t1. rewrite substring_prefix in Hk.
  inversion Hk; subst. auto.
Qed.

(** X4. What [_extract_post_id] gives for a tag: none when its id
    does not show [post-<digits>]; otherwise the number that the
    captured digits denote, which is never negative, unless there are
    more digits than [int()] accepts (4300), in which case it raises
    [ValueError]. *)
Theorem extract_post_id_outcomes (post_tag : node) :
  match search post_id_re (get_default "id" "" post_tag) with
  | None => _extract_post_id post_tag = Ok None
  | Some m =>
      exists digits,
        m = Some digits
        /\ all_chars is_digit digits = true /\ digits <> EmptyString
        /\ 0 <= decimal_value digits
        /\ _extract_post_id post_tag
           = if Z.of_nat (String.length digits) <=? int_max_str_digits
             then Ok (Some (decimal_value digits))
             else Raise ValueError
  end.
Proof.
  unfold _extract_post_id.
  destruct (search post_id_re _) as [m |] eqn:S; [| reflexivity].
  destruct (post_id_capture _ _ S) as (d & -> & Hd & Hne).
  exists d. repeat split; trivial.
  - now apply decimal_from_nonneg.
  - cbn [group1]. rewrite (py_int_digits d Hd Hne).
    now destruct (_ <=? _).
Qed.

(** ** What can drop a card *)





Lemma rbind_ok {A B} (r : result A) (k : A -> result B) (b : B) :
  rbind r k = Ok b -> exists a, r = Ok a /\ k a = Ok b.
Proof.
  destruct r; simpl; [eauto | discriminate].
Qed.


Lemma find_sat (p : node -> bool) (n x : node) :
  find p n = Some x -> p x = true.
Proof.
  unfold find, find_all.
  destruct (filter p (descendants n)) as [| y l] eqn:F; [discriminate |].
  intros H; inversion H; subst.
  assert (In x (filter p (descendants n))) by (rewrite F; now left).
  apply filter_In in H0. tauto.
Qed.





(** ** What the records hold *)

(** The fields of a channel record that do not come from the
    statistics. *)
Lemma channel_card_fields (card : node) (info : channel_info) :
  parse_channel_card card = Ok (Some info) ->
  exists link_tag href,
    stat_link card = Some link_tag
    /\ get "href" link_tag = Some href
    /\ matches stat_link_re href = true
    /\ tgstat_url info
       = (if startswith "/" href then BASE_URL ++ href
          else if startswith "http" href then href
          else BASE_URL ++ "/" ++ href)
    /\ username info
       = match search stat_link_re href with
         | Some m => Some (group1 m)
         | None => None
         end
    /\ avatar_url info
       = match find (fun n => tag_is "img" n && class_is "img-thumbnail" n) card with
         | Some img => option_map absolute_scheme (get_truthy "src" img)
         | None => None
         end.
Proof.
  unfold parse_channel_card.
  destruct (stat_link card) as [link |] eqn:L; [| discriminate].
  pose proof L as Hsat. unfold stat_link in Hsat. apply find_sat in Hsat.
  apply andb_prop in Hsat. destruct Hsat as [_ Hhref]. unfold attr_sat in Hhref.
  destruct (get "href" link) as [href |] eqn:G; [| discriminate].
  cbv zeta. intros H.
  apply rbind_ok in H. destruct H as ([[subs reach] ci] & _ & H).
  apply rbind_ok in H. destruct H as (subs' & _ & H).
  inversion H; subst info; clear H. cbn.
  exists link, href. repeat split; trivial.
Qed.

Lemma card_records_in (card : node) (info : channel_info) :
  In info (card_records card) -> parse_channel_card card = Ok (Some info).
Proof.
  unfold card_records.
  destruct (parse_channel_card card) as [[i |] | e]; simpl; try tauto.
  intros [-> | []]. reflexivity.
Qed.


(** X7. Every channel record that [_parse_search_html] returns names
    its channel ([username] is never none) and carries an absolute
    address: [tgstat_url] begins with http. *)
Theorem channel_records_identified
  (BeautifulSoup : string -> node) (html_content : string) (info : channel_info)
  (Hin : In info (_parse_search_html BeautifulSoup html_content)) :
  username info <> None /\ startswith "http" (tgstat_url info) = true.
Proof.
  unfold _parse_search_html in Hin. apply in_flat_map in Hin.
  destruct Hin as (card & _ & Hin). apply card_records_in in Hin.
  destruct (channel_card_fields _ _ Hin)
    as (link & href & _ & _ & Hm & Hurl & Huser & _).
  split.
  - rewrite Huser. unfold matches in Hm.
    destruct (search stat_link_re href); [discriminate | discriminate].
  - rewrite Hurl. destruct (startswith "/" href); [reflexivity |].
    destruct (startswith "http" href) eqn:P; [exact P | reflexivity].
Qed.

Lemma channel_records_identified_witness :
  username good_record <> None
  /\ startswith "http" (tgstat_url good_record) = true.
Proof.
  apply (channel_records_identified sample_soup "results" good_record).
  vm_compute. left. reflexivity.
Defined.





(** ** The session *)

Lemma refresh_sent (BeautifulSoup : string -> node) (w : world)
      (url_to_visit : option string) (s : session) :
  let r := _refresh_csrf_token BeautifulSoup w url_to_visit s in
  sent (snd r) = (sent s ++ [GET (refresh_url url_to_visit)])%list
  /\ (fst r = true -> csrf_token_form (snd r) <> None).
Proof.
  unfold _refresh_csrf_token.
  destruct (http_get w _ _) as [page |]; cbn [fst snd];
    [| split; [reflexivity | discriminate]].
  destruct (meta_token _); cbn [fst snd]; [split; [reflexivity | discriminate] |].
  destruct (input_token _); cbn [fst snd]; split; try reflexivity; discriminate.
Qed.

(** X9. Each refresh sends exactly one GET, to the page asked for or
    to the search page; the flag it returns says whether a token is
    stored afterwards; and the token stored for a page is the content
    of its csrf-token meta tag when that has one, and the value of the
    hidden input otherwise. *)
Theorem refresh_reports_what_it_stores
  (BeautifulSoup : string -> node) (w : world)
  (url_to_visit : option string) (s : session) :
  let r := _refresh_csrf_token BeautifulSoup w url_to_visit s in
  sent (snd r) = (sent s ++ [GET (refresh_url url_to_visit)])%list
  /\ (fst r = true <-> csrf_token_form (snd r) <> None)
  /\ (forall page,
        http_get w (List.length (sent s)) (refresh_url url_to_visit) = Some page ->
        csrf_token_form (snd r)
        = match meta_token (BeautifulSoup page) with
          | Some token => Some token
          | None => input_token (BeautifulSoup page)
          end).
Proof.
  unfold _refresh_csrf_token.
  destruct (http_get w _ _) as [page |]; cbn [fst snd].
  - destruct (meta_token (BeautifulSoup page)) as [t |] eqn:M; cbn [fst snd].
    + repeat split; try discriminate; trivial.
      intros p E; inversion E; subst. now rewrite M.
    + destruct (input_token (BeautifulSoup page)) as [t |] eqn:I; cbn [fst snd].
      * repeat split; try discriminate; trivial.
        intros p E; inversion E; subst. now rewrite M, I.
      * repeat split; try discriminate; try tauto.
        intros p E; inversion E; subst. now rewrite M, I.
  - repeat split; try discriminate; tauto.
Qed.

Lemma ensure_token_sent (BeautifulSoup : string -> node) (w : world)
      (url : option string) (s : session) :
  let r := ensure_token BeautifulSoup w url s in
  (exists reqs, sent (snd r) = (sent s ++ reqs)%list
                /\ Forall (fun q => is_get q = true) reqs)
  /\ (fst r = true -> csrf_token_form (snd r) <> None).
Proof.
  unfold ensure_token. destruct (has_token s) eqn:T; cbn [fst snd].
  - split; [exists []; split; [now rewrite app_nil_r | constructor] |].
    intros _. unfold has_token in T. destruct (csrf_token_form s); congruence.
  - destruct (refresh_sent BeautifulSoup w url s) as (Hs & Hf).
    split; [eexists; split; [exact Hs | repeat constructor] |].
    apply Hf.
Qed.

Lemma make_search_tokens (BeautifulSoup : string -> node) (w : world)
      (query : string) (page offset : Z) (sort : string) (s : session) :
  exists reqs,
    sent (snd (_make_search_request BeautifulSoup w query page offset sort s))
    = (sent s ++ reqs)%list
    /\ Forall with_token reqs.
Proof.
  unfold _make_search_request.
  destruct (ensure_token_sent BeautifulSoup w None s) as [[reqs [Hs Hg]] Ht].
  destruct (ensure_token BeautifulSoup w None s) as [[|] s1]; cbn [fst snd] in *.
  - exists (reqs ++ [POST_search (csrf_token_form s1) query sort page offset])%list.
    split; [cbv zeta; cbn [snd record sent]; now rewrite Hs, app_assoc |].
    apply Forall_app. split.
    + eapply Forall_impl; [| exact Hg]. intros [] H; unfold with_token; simpl;
        discriminate.
    + repeat constructor. unfold with_token. simpl.
      specialize (Ht eq_refl). congruence.
  - exists reqs. split; [exact Hs |].
    eapply Forall_impl; [| exact Hg]. intros [] H; unfold with_token; simpl;
      discriminate.
Qed.

Lemma make_more_tokens (BeautifulSoup : string -> node) (w : world)
      (channel : string) (last_post_id : option Z) (offset : Z) (s : session) :
  exists reqs,
    sent (snd (_make_more_posts_request BeautifulSoup w channel last_post_id offset s))
    = (sent s ++ reqs)%list
    /\ Forall with_token reqs.
Proof.
  unfold _make_more_posts_request.
  destruct (ensure_token_sent BeautifulSoup w (Some (channel_url channel)) s)
    as [[reqs [Hs Hg]] Ht].
  destruct (ensure_token BeautifulSoup w _ s) as [[|] s1]; cbn [fst snd] in *.
  - exists (reqs ++ [POST_posts (csrf_token_form s1) channel last_post_id offset])%list.
    split; [cbv zeta; cbn [snd record sent]; now rewrite Hs, app_assoc |].
    apply Forall_app. split.
    + eapply Forall_impl; [| exact Hg]. intros [] H; unfold with_token; simpl;
        discriminate.
    + repeat constructor. unfold with_token. simpl.
      specialize (Ht eq_refl). congruence.
  - exists reqs. split; [exact Hs |].
    eapply Forall_impl; [| exact Hg]. intros [] H; unfold with_token; simpl;
      discriminate.
Qed.

Lemma search_loop_tokens (BeautifulSoup : string -> node) (w : world) (fuel : nat) :
  forall query max_pages sort all_channels page offset has_more s o s',
    search_loop BeautifulSoup w fuel query max_pages sort all_channels page offset
                has_more s
    = Some (o, s') ->
    exists reqs, sent s' = (sent s ++ reqs)%list /\ Forall with_token reqs.
Proof.
  induction fuel as [| fuel IH]; intros query max_pages sort all_channels page
                                        offset has_more s o s' H.
  - simpl in H. destruct (_ && _); [discriminate |].
    inversion H; subst. exists []. split; [now rewrite app_nil_r | constructor].
  - cbn [search_loop] in H.
    destruct (_ && _);
      [| inversion H; subst; exists []; split; [now rewrite app_nil_r | constructor]].
    destruct (make_search_tokens BeautifulSoup w query page offset sort s)
      as [reqs [Hs Hf]].
    destruct (_make_search_request _ _ _ _ _ _ _) as [reply s1]. cbn [snd] in Hs.
    destruct (ok_envelope reply) as [e |].
    + destruct (negb (truthy _)); [inversion H; subst; now exists reqs |].
      destruct (is_nil _ && _); [inversion H; subst; now exists reqs |].
      apply IH in H. destruct H as [rest [H Hr]]. exists (reqs ++ rest)%list.
      split; [now rewrite H, Hs, app_assoc | now apply Forall_app].
    + destruct (page =? 0); inversion H; subst; now exists reqs.
Qed.

Lemma posts_loop_tokens (BeautifulSoup : string -> node) (w : world) (fuel : nat) :
  forall channel max_posts all_posts last_post_id offset has_more s acc s',
    posts_loop BeautifulSoup w fuel channel max_posts all_posts last_post_id offset
               has_more s
    = Some (acc, s') ->
    exists reqs, sent s' = (sent s ++ reqs)%list /\ Forall with_token reqs.
Proof.
  induction fuel as [| fuel IH]; intros channel max_posts all_posts last_post_id
                                        offset has_more s acc s' H.
  - simpl in H. destruct (_ && _ && _); [discriminate |].
    inversion H; subst. exists []. split; [now rewrite app_nil_r | constructor].
  - cbn [posts_loop] in H.
    destruct (_ && _ && _);
      [| inversion H; subst; exists []; split; [now rewrite app_nil_r | constructor]].
    destruct (make_more_tokens BeautifulSoup w channel last_post_id offset s)
      as [reqs [Hs Hf]].
    destruct (_make_more_posts_request _ _ _ _ _ _) as [reply s1]. cbn [snd] in Hs.
    destruct (ok_envelope reply) as [e |]; [| inversion H; subst; now exists reqs].
    destruct (negb (truthy _)); [inversion H; subst; now exists reqs |].
    destruct (is_nil _); [inversion H; subst; now exists reqs |].
    destruct (negb (id_truthy _)); [inversion H; subst; now exists reqs |].
    apply IH in H. destruct H as [rest [H Hr]]. exists (reqs ++ rest)%list.
    split; [now rewrite H, Hs, app_assoc | now apply Forall_app].
Qed.

(** X10. Whatever the session holds at the start, neither driver ever
    posts without a token: every POST sent in a run of [search_channels]
    or of [get_channel_posts] carries a token, the one that a refresh has
    just stored when the session had none.  The token may be the empty
    text, when that is what the page shows. *)
Theorem no_post_without_token
  (BeautifulSoup : string -> node) (w : world) (fuel : nat)
  (query sort channel : string) (max_pages max_posts : Z) (s : session) :
  (forall o s',
      search_channels BeautifulSoup w fuel query max_pages sort s = Some (o, s') ->
      exists reqs, sent s' = (sent s ++ reqs)%list
                   /\ Forall (fun q => token_of q <> Some None) reqs)
  /\ (forall o s',
        get_channel_posts BeautifulSoup w fuel channel max_posts s = Some (o, s') ->
        exists reqs, sent s' = (sent s ++ reqs)%list
                     /\ Forall (fun q => token_of q <> Some None) reqs)
  /\ (exists s',
        search_channels sample_soup' empty_token_peer 1 query 1 sort new_session
        = Some (Found [good_record], s')
        /\ sent s' = [GET SEARCH_URL; POST_search (Some "") query sort 0 0]).
Proof.
  split; [| split].
  - intros o s' H. eapply search_loop_tokens. exact H.
  - intros o s' H. unfold get_channel_posts, _get_initial_posts_html in H.
    destruct (negb (truthy channel)).
    { inversion H; subst. exists []. split; [now rewrite app_nil_r | constructor]. }
    assert (Hget : Forall with_token [GET (channel_url channel)])
      by (repeat constructor; unfold with_token; simpl; discriminate).
    destruct (http_get w _ _) as [page |];
      [| inversion H; subst; now exists [GET (channel_url channel)]].
    destruct (negb (truthy page));
      [inversion H; subst; now exists [GET (channel_url channel)] |].
    destruct (is_nil _);
      [inversion H; subst; now exists [GET (channel_url channel)] |].
    destruct (posts_loop _ _ _ _ _ _ _ _ _ _) as [[acc s2] |] eqn:L; [| discriminate].
    inversion H; subst. apply posts_loop_tokens in L. destruct L as [rest [L Hr]].
    exists ([GET (channel_url channel)] ++ rest)%list.
    split; [rewrite L; simpl; now rewrite <- app_assoc | now apply Forall_app].
  - eexists. split; reflexivity.
Qed.

(** ** Runs of the search *)

Section SearchRuns.

Variable BeautifulSoup : string -> node.
Variable w : world.

Lemma search_loop_keeps_token (fuel : nat) :
  forall query max_pages sort all_channels page offset has_more s o s',
    has_token s = true ->
    search_loop BeautifulSoup w fuel query max_pages sort all_channels page offset
                has_more s
    = Some (o, s') ->
    csrf_token_form s' = csrf_token_form s
    /\ exists reqs,
         sent s' = (sent s ++ reqs)%list
         /\ Forall (fun q => exists page offset,
                        q = POST_search (csrf_token_form s) query sort page offset)
                   reqs.
Proof.
  induction fuel as [| fuel' IH]; intros query max_pages sort all_channels page
                                         offset has_more s o s' Htoken H.
  - simpl in H. destruct (_ && _); [discriminate |].
    inversion H; subst. split; [reflexivity |].
    exists []. split; [now rewrite app_nil_r | constructor].
  - cbn [search_loop] in H.
    destruct (_ && _);
      [| inversion H; subst; split; [reflexivity |];
         exists []; split; [now rewrite app_nil_r | constructor]].
    rewrite (make_search_with_token _ _ _ _ _ _ _ Htoken) in H.
    cbv beta iota zeta in H.
    set (q := POST_search (csrf_token_form s) query sort page offset) in *.
    assert (Hq : Forall (fun q => exists page offset,
                             q = POST_search (csrf_token_form s) query sort
                                             page offset) [q])
      by (repeat constructor; subst q; eauto).
    assert (Hstop : csrf_token_form (record q s) = csrf_token_form s
                    /\ exists reqs,
                         sent (record q s) = (sent s ++ reqs)%list
                         /\ Forall (fun q => exists page offset,
                                        q = POST_search (csrf_token_form s) query
                                                        sort page offset) reqs)
      by (split; [reflexivity | now exists [q]]).
    destruct (ok_envelope _) as [e |].
    + destruct (negb (truthy _)); [inversion H; subst; exact Hstop |].
      destruct (is_nil _ && _); [inversion H; subst; exact Hstop |].
      apply IH in H; [| exact Htoken].
      destruct H as [Ht [rest [Hs Hr]]]. split; [exact Ht |].
      exists (q :: rest). split.
      * rewrite Hs. simpl. now rewrite <- app_assoc.
      * constructor; [subst q; eauto | exact Hr].
    + destruct (page =? 0); inversion H; subst; exact Hstop.
Qed.

(** X11. A search by a session that holds a token never refreshes it:
    the token is the same afterwards, and everything sent is a search
    request with that token, the query and the sort key of the call. *)
Theorem search_keeps_token
  (fuel : nat) (query : string) (max_pages : Z) (sort : string) (s : session)
  (o : outcome channel_info) (s' : session)
  (Htoken : has_token s = true)
  (Hrun : search_channels BeautifulSoup w fuel query max_pages sort s = Some (o, s')) :
  csrf_token_form s' = csrf_token_form s
  /\ exists reqs,
       sent s' = (sent s ++ reqs)%list
       /\ Forall (fun q => exists page offset,
                      q = POST_search (csrf_token_form s) query sort page offset)
                 reqs.
Proof.
  eapply search_loop_keeps_token; eassumption.
Qed.

End SearchRuns.

Lemma search_keeps_token_witness :
  exists s',
    search_channels sample_soup gap_peer 3 "news" 3 "participants" fresh
    = Some (Found [good_record; good_record], s')
    /\ csrf_token_form s' = Some "tok-1".
Proof.
  eexists. split; [vm_compute; reflexivity |].
  refine (proj1 (search_keeps_token sample_soup gap_peer 3 "news" 3 "participants"
                                    fresh _ _ eq_refl _)).
  vm_compute. reflexivity.
Defined.

Section SearchPages.

Variable BeautifulSoup : string -> node.
Variable w : world.

Lemma pages_app (l1 l2 : list request) (n : nat) :
  pages BeautifulSoup w n (l1 ++ l2)
  = (pages BeautifulSoup w n l1
     ++ pages BeautifulSoup w (n + List.length l1) l2)%list.
Proof.
  revert n. induction l1 as [| r l1 IH]; intros n; simpl.
  - now rewrite Nat.add_0_r.
  - rewrite IH, <- app_assoc. now rewrite Nat.add_succ_r.
Qed.

(** What one call of [_make_search_request] sends and receives: at most
    one search request, whose reply is the result of the call. *)
Lemma make_search_shape (query : string) (page offset : Z) (sort : string)
      (s : session) :
  let r := _make_search_request BeautifulSoup w query page offset sort s in
  exists reqs,
    sent (snd r) = (sent s ++ reqs)%list
    /\ pages BeautifulSoup w (List.length (sent s)) reqs
       = page_of BeautifulSoup (fst r)
    /\ (List.length (filter is_search_post reqs) <= 1)%nat
    /\ (fst r = None \/ exists n q, fst r = http_post w n q).
Proof.
  unfold _make_search_request, ensure_token.
  assert (Hone : forall n q,
             pages BeautifulSoup w n [q]
             = match q with
               | POST_search _ _ _ _ _ => page_of BeautifulSoup (http_post w n q)
               | _ => []
               end)
    by (intros n q; cbn [pages]; now rewrite app_nil_r).
  destruct (has_token s).
  - eexists [_]. cbv zeta. cbn [fst snd record sent].
    split; [reflexivity |]. split; [now rewrite Hone |].
    split; [cbn; lia | eauto].
  - unfold _refresh_csrf_token. set (url := refresh_url None).
    assert (Htwo : forall t q,
               q = POST_search t query sort page offset ->
               pages BeautifulSoup w (List.length (sent s)) [GET url; q]
               = page_of BeautifulSoup
                         (http_post w (List.length (sent s ++ [GET url])) q)).
    { intros t q ->. cbn [pages app].
      now rewrite app_nil_r, length_app, Nat.add_comm. }
    destruct (http_get w _ url) as [pg |]; cbn [fst snd].
    + destruct (meta_token _); cbn [fst snd].
      * eexists [_; _]. cbv zeta. cbn [fst snd record sent set_token].
        split; [now rewrite <- app_assoc |].
        split; [eapply Htwo; reflexivity |]. split; [cbn; lia | eauto].
      * destruct (input_token _); cbn [fst snd].
        -- eexists [_; _]. cbv zeta. cbn [fst snd record sent set_token].
           split; [now rewrite <- app_assoc |].
           split; [eapply Htwo; reflexivity |]. split; [cbn; lia | eauto].
        -- eexists [_]. cbn [fst snd record sent set_token].
           split; [reflexivity |]. split; [reflexivity |].
           split; [cbn; lia | auto].
    + eexists [_]. cbn [fst snd record sent set_token].
      split; [reflexivity |]. split; [reflexivity |].
      split; [cbn; lia | auto].
Qed.

Lemma ok_envelope_some (reply : option envelope) (e : envelope) :
  ok_envelope reply = Some e -> reply = Some e.
Proof.
  unfold ok_envelope. destruct reply as [e' |]; [| discriminate].
  destruct (status e'); [| discriminate].
  destruct (_ =? _)%string; [| discriminate].
  intros H; inversion H; reflexivity.
Qed.

(** From a page with a positive index on, the list returned is the list
    collected so far followed by the pages of the replies. *)
Lemma search_loop_pages (fuel : nat) :
  (forall n q e, http_post w n q = Some e ->
                 forall p, nextPage e = Some p -> 0 < p) ->
  forall query max_pages sort all_channels page offset has_more s l s',
    0 < page ->
    search_loop BeautifulSoup w fuel query max_pages sort all_channels page offset
                has_more s
    = Some (Found l, s') ->
    exists reqs,
      sent s' = (sent s ++ reqs)%list
      /\ l = (all_channels ++ pages BeautifulSoup w (List.length (sent s)) reqs)%list.
Proof.
  intros Hpeer.
  induction fuel as [| fuel IH]; intros query max_pages sort all_channels page
                                        offset has_more s l s' Hpage H.
  - simpl in H. destruct (_ && _); [discriminate |].
    inversion H; subst. exists []. now rewrite !app_nil_r.
  - cbn [search_loop] in H.
    destruct (_ && _); [| inversion H; subst; exists []; now rewrite !app_nil_r].
    destruct (make_search_shape query page offset sort s)
      as (reqs & Hs & Hp & _ & Hreply).
    destruct (_make_search_request _ _ _ _ _ _ _) as [reply s1].
    cbn [fst snd] in Hs, Hp, Hreply. unfold page_of in Hp.
    destruct (ok_envelope reply) as [e |] eqn:E.
    + destruct (truthy (default "" (html e))); cbn [negb] in H;
        [| inversion H; subst; exists reqs; now rewrite Hp, app_nil_r].
      replace (page =? 0) with false in H by (symmetry; apply Z.eqb_neq; lia).
      rewrite andb_false_r in H.
      apply IH in H.
      * destruct H as [rest [Hs' Hl]]. exists (reqs ++ rest)%list. split.
        -- now rewrite Hs', Hs, app_assoc.
        -- rewrite Hl, pages_app, Hp, Hs, length_app, <- app_assoc. reflexivity.
      * destruct (nextPage e) as [p |] eqn:N; cbn [default]; [| lia].
        apply ok_envelope_some in E. subst reply.
        destruct Hreply as [Hr | (n & q & Hr)]; [discriminate |].
        eapply Hpeer; [symmetry; exact Hr | exact N].
    + replace (page =? 0) with false in H by (symmetry; apply Z.eqb_neq; lia).
      inversion H; subst. exists reqs. now rewrite Hp, app_nil_r.
Qed.

(** X12. Against a peer that names only positive next pages, the list
    that [search_channels] returns is the concatenation, in the order of
    the requests, of the channels parsed from the replies. *)
Theorem search_returns_pages_in_order
  (fuel : nat) (query : string) (max_pages : Z) (sort : string) (s : session)
  (l : list channel_info) (s' : session)
  (Hpeer : forall n q e, http_post w n q = Some e ->
                         forall p, nextPage e = Some p -> 0 < p)
  (Hrun : search_channels BeautifulSoup w fuel query max_pages sort s
          = Some (Found l, s')) :
  exists reqs,
    sent s' = (sent s ++ reqs)%list
    /\ l = pages BeautifulSoup w (List.length (sent s)) reqs.
Proof.
  unfold search_channels in Hrun.
  destruct fuel as [| fuel]; cbn [search_loop] in Hrun.
  - destruct (_ && _); [discriminate |].
    inversion Hrun; subst. exists []. now rewrite app_nil_r.
  - destruct (_ && _); [| inversion Hrun; subst; exists []; now rewrite app_nil_r].
    destruct (make_search_shape query 0 0 sort s) as (reqs & Hs & Hp & _ & Hreply).
    destruct (_make_search_request _ _ _ _ _ _ _) as [reply s1].
    cbn [fst snd] in Hs, Hp, Hreply. unfold page_of in Hp.
    destruct (ok_envelope reply) as [e |] eqn:E; [| discriminate].
    destruct (truthy (default "" (html e))); cbn [negb] in Hrun;
      [| inversion Hrun; subst; now exists reqs].
    destruct (_parse_search_html BeautifulSoup (default "" (html e)))
      as [| c cs] eqn:P; cbn [is_nil andb Z.eqb] in Hrun.
    + inversion Hrun; subst. now exists reqs.
    + apply search_loop_pages in Hrun; [| exact Hpeer |].
      * destruct Hrun as [rest [Hs' Hl]]. exists (reqs ++ rest)%list. split.
        -- now rewrite Hs', Hs, app_assoc.
        -- rewrite Hl, pages_app, Hp, Hs, length_app. reflexivity.
      * destruct (nextPage e) as [p |] eqn:N; cbn [default]; [| lia].
        apply ok_envelope_some in E. subst reply.
        destruct Hreply as [Hr | (n & q & Hr)]; [discriminate |].
        eapply Hpeer; [symmetry; exact Hr | exact N].
Qed.

(** With a peer that sends no [nextPage], the loop ends within the page
    budget. *)
Lemma search_loop_budget (fuel : nat) :
  (forall n q e, http_post w n q = Some e -> nextPage e = None) ->
  forall query max_pages sort all_channels page offset has_more s,
    (Z.to_nat (max_pages - page) <= fuel)%nat ->
    exists o s' reqs,
      search_loop BeautifulSoup w fuel query max_pages sort all_channels page offset
                  has_more s
      = Some (o, s')
      /\ sent s' = (sent s ++ reqs)%list
      /\ Z.of_nat (List.length (filter is_search_post reqs))
         <= Z.max 0 (max_pages - page).
Proof.
  intros Hpeer.
  induction fuel as [| fuel IH]; intros query max_pages sort all_channels page
                                        offset has_more s Hfuel.
  - simpl. destruct (page <? max_pages) eqn:C; [apply Z.ltb_lt in C; lia |].
    cbn [andb]. exists (Found all_channels), s, [].
    rewrite app_nil_r. repeat split. simpl. lia.
  - cbn [search_loop].
    destruct (_ && _) eqn:C.
    2:{ exists (Found all_channels), s, []. rewrite app_nil_r.
        repeat split. simpl. lia. }
    apply andb_prop in C. destruct C as [C _]. apply Z.ltb_lt in C.
    destruct (make_search_shape query page offset sort s)
      as (reqs & Hs & _ & Hcount & Hreply).
    destruct (_make_search_request _ _ _ _ _ _ _) as [reply s1].
    cbn [fst snd] in Hs, Hcount, Hreply.
    assert (Hhere : Z.of_nat (List.length (filter is_search_post reqs))
                    <= Z.max 0 (max_pages - page)) by lia.
    destruct (ok_envelope reply) as [e |] eqn:E.
    + destruct (negb (truthy _)); [now exists (Found all_channels), s1, reqs |].
      destruct (is_nil _ && _); [now exists (Found []), s1, reqs |].
      assert (N : nextPage e = None).
      { apply ok_envelope_some in E. subst reply.
        destruct Hreply as [Hr | (n & q & Hr)]; [discriminate |].
        eapply Hpeer. symmetry. exact Hr. }
      rewrite N. cbn [default].
      destruct (IH query max_pages sort
                   (all_channels ++ _parse_search_html BeautifulSoup
                                                       (default "" (html e)))%list
                   (page + 1) (default (offset + 30) (nextOffset e))
                   (default false (hasMore e)) s1)
        as (o & s' & rest & H & Hs' & Hc); [lia |].
      exists o, s', (reqs ++ rest)%list. split; [exact H |].
      split; [now rewrite Hs', Hs, app_assoc |].
      rewrite filter_app, length_app. lia.
    + destruct (page =? 0);
        [now exists Failure, s1, reqs | now exists (Found all_channels), s1, reqs].
Qed.

(** X13. Against a peer that leaves the page count to the driver (no
    envelope names a next page) [search_channels] returns, given fuel
    for [max_pages] rounds, and has sent at most [max_pages] search
    requests. *)
Theorem search_respects_page_budget
  (fuel : nat) (query : string) (max_pages : Z) (sort : string) (s : session)
  (Hpeer : forall n q e, http_post w n q = Some e -> nextPage e = None)
  (Hfuel : (Z.to_nat max_pages <= fuel)%nat) :
  exists o s' reqs,
    search_channels BeautifulSoup w fuel query max_pages sort s = Some (o, s')
    /\ sent s' = (sent s ++ reqs)%list
    /\ Z.of_nat (List.length (filter is_search_post reqs)) <= Z.max 0 max_pages.
Proof.
  destruct (search_loop_budget fuel Hpeer query max_pages sort [] 0 0 true s)
    as (o & s' & reqs & H & Hs & Hc).
  - now rewrite Z.sub_0_r.
  - rewrite Z.sub_0_r in Hc. now exists o, s', reqs.
Qed.

Lemma search_loop_forever (fuel : nat) :
  (forall n q, exists e payload,
      http_post w n q = Some e
      /\ status e = Some "ok"
      /\ html e = Some payload /\ truthy payload = true
      /\ _parse_search_html BeautifulSoup payload <> []
      /\ hasMore e = Some true
      /\ nextPage e = Some 0) ->
  forall query max_pages sort all_channels offset s,
    0 < max_pages ->
    has_token s = true ->
    search_loop BeautifulSoup w fuel query max_pages sort all_channels 0 offset
                true s
    = None.
Proof.
  intros Hpeer.
  induction fuel as [| fuel IH]; intros query max_pages sort all_channels offset s
                                        Hmax Htoken;
    cbn [search_loop];
    replace (0 <? max_pages) with true by (symmetry; now apply Z.ltb_lt);
    cbn [andb]; [reflexivity |].
  rewrite (make_search_with_token _ _ _ _ _ _ _ Htoken). cbv beta iota zeta.
  destruct (Hpeer (List.length (sent s))
                  (POST_search (csrf_token_form s) query sort 0 offset))
    as (e & payload & -> & Hok & Hhtml & Hpay & Hparse & Hmore & Hnext).
  unfold ok_envelope. rewrite Hok.
  replace ("ok" =? "ok")%string with true by reflexivity.
  rewrite Hhtml. cbn [default]. rewrite Hpay. cbn [negb].
  destruct (_parse_search_html BeautifulSoup payload) as [| c cs] eqn:P;
    [congruence |].
  cbn [is_nil andb]. rewrite Hmore, Hnext. cbn [default].
  apply IH; [exact Hmax | exact Htoken].
Qed.

(** X14. The page budget does not bound a search against a peer that
    keeps naming page 0 as the next page: if every reply is ok, lists a
    channel, announces more and names page 0, [search_channels] with a
    positive budget never returns, whatever the number of rounds it is
    given. *)
Theorem search_never_ends_on_page_zero
  (fuel : nat) (query : string) (max_pages : Z) (sort : string) (s : session)
  (Hpeer : forall n q, exists e payload,
      http_post w n q = Some e
      /\ status e = Some "ok"
      /\ html e = Some payload /\ truthy payload = true
      /\ _parse_search_html BeautifulSoup payload <> []
      /\ hasMore e = Some true
      /\ nextPage e = Some 0)
  (Hmax : 0 < max_pages)
  (Htoken : has_token s = true) :
  search_channels BeautifulSoup w fuel query max_pages sort s = None.
Proof.
  unfold search_channels. now apply search_loop_forever.
Qed.

End SearchPages.

Lemma search_returns_pages_in_order_witness :
  exists s',
    search_channels sample_soup plain_peer 2 "news" 2 "participants" fresh
    = Some (Found [good_record; good_record], s')
    /\ exists reqs,
         sent s' = (sent fresh ++ reqs)%list
         /\ [good_record; good_record] = pages sample_soup plain_peer 1 reqs.
Proof.
  eexists. split; [vm_compute; reflexivity |].
  apply (search_returns_pages_in_order sample_soup plain_peer 2 "news" 2
                                       "participants" fresh).
  - intros n q e H p Hp. inversion H; subst. discriminate Hp.
  - vm_compute. reflexivity.
Defined.

Lemma search_respects_page_budget_witness :
  exists o s' reqs,
    search_channels sample_soup plain_peer 2 "news" 2 "participants" fresh
    = Some (o, s')
    /\ sent s' = (sent fresh ++ reqs)%list
    /\ Z.of_nat (List.length (filter is_search_post reqs)) <= Z.max 0 2.
Proof.
  apply (search_respects_page_budget sample_soup plain_peer 2 "news" 2
                                     "participants" fresh).
  - intros n q e H. inversion H; subst. reflexivity.
  - apply Nat.le_refl.
Defined.

Lemma search_never_ends_on_page_zero_witness :
  search_channels sample_soup looping_peer 1000 "news" 1 "participants" fresh = None.
Proof.
  apply (search_never_ends_on_page_zero sample_soup looping_peer).
  - intros n q. do 2 eexists. split; [reflexivity |].
    repeat split; try reflexivity. intros H. vm_compute in H. discriminate H.
  - lia.
  - reflexivity.
Defined.

(** ** Runs of the post feed *)

Section FeedRuns.

Variable BeautifulSoup : string -> node.
Variable w : world.

(** X15. [get_channel_posts] fails in exactly three cases: the channel
    name is empty (nothing is sent), the landing page cannot be fetched,
    or its body is empty.  Nothing that happens while more posts are
    loaded turns the result into a failure. *)
Theorem posts_fail_only_at_the_start
  (fuel : nat) (channel : string) (max_posts : Z) (s s' : session) :
  get_channel_posts BeautifulSoup w fuel channel max_posts s = Some (Failure, s')
  <-> (truthy channel = false /\ s' = s)
      \/ (truthy channel = true
          /\ s' = record (GET (channel_url channel)) s
          /\ (http_get w (List.length (sent s)) (channel_url channel) = None
              \/ http_get w (List.length (sent s)) (channel_url channel)
                 = Some EmptyString)).
Proof.
  unfold get_channel_posts, _get_initial_posts_html.
  destruct (truthy channel); cbn [negb].
  - destruct (http_get w _ _) as [page |].
    + destruct page as [| c page]; cbn [truthy String.eqb negb].
      * split; [intros H; inversion H; right; auto |].
        intros [[H _] | [_ [-> _]]]; [discriminate | reflexivity].
      * split.
        -- destruct (is_nil _); [discriminate |].
           destruct (posts_loop _ _ _ _ _ _ _ _ _ _) as [[acc s2] |]; discriminate.
        -- intros [[H _] | [_ [_ [H | H]]]]; discriminate.
    + split; [intros H; inversion H; right; auto |].
      intros [[H _] | [_ [-> _]]]; [discriminate | reflexivity].
  - split; [intros H; inversion H; left; auto |].
    intros [[_ ->] | [H _]]; [reflexivity | discriminate].
Qed.



End FeedRuns.

Lemma posts_fail_only_at_the_start_witness :
  get_channel_posts sample_soup dead_peer 0 "@rian_ru" 45 fresh
  = Some (Failure, record (GET (channel_url "@rian_ru")) fresh).
Proof.
  apply (posts_fail_only_at_the_start sample_soup dead_peer).
  right. repeat split. left. reflexivity.
Defined.


(** ** What leaves the number normalizer *)

(** X17. [_parse_number] returns an integer, returns [None], or raises
    [OverflowError]: no other exception leaves it, and in particular
    the [ValueError] of a failed conversion never does. *)
Theorem parse_number_outcomes (text : string) :
  ((exists n, _parse_number text = Ok (Some n))
   \/ _parse_number text = Ok None
   \/ _parse_number text = Raise OverflowError)
  /\ _parse_number text <> Raise ValueError.
Proof.
  destruct (_parse_number text) as [[n |] | e] eqn:H.
  - split; [left; eauto | discriminate].
  - split; [right; left; reflexivity | discriminate].
  - apply parse_number_raises in H. subst e.
    split; [right; right; reflexivity | discriminate].
Qed.
